(** * plexapi.audio: a shallow embedding of the audio object model

    The module [plexapi/audio.py] defines the classes [Audio], [Artist],
    [Album], [Track], [TrackSession] and [TrackHistory].  Their loaders fill
    the attributes of a Python object from the attribute dictionary of an XML
    element; their navigation methods hand a key and filters to the fetch
    layer of [plexapi.base] or to the owning library section.

    Python objects are attribute stores ([gmap string pyval]), XML attribute
    dictionaries are [gmap string string], Python [str] values are byte
    strings (the UTF-8 encoding of the text), and a method that ends in a call
    to the fetch layer is modelled by the request it issues. *)

From Stdlib Require Import ZArith Ascii String List Lia Bool.
From Stdlib Require Import DecimalString DecimalZ Floats.PrimFloat.
From stdpp Require Import base option gmap strings.

Local Open Scope string_scope.

(** ** Python string primitives *)

Module PyStr.

(** [s.startswith(p)]. *)
Fixpoint startswith (p s : string) : bool :=
  match p, s with
  | EmptyString, _ => true
  | String a p', String b s' => Ascii.eqb a b && startswith p' s'
  | String _ _, EmptyString => false
  end.

(** [p in s]: some suffix of [s] starts with [p]. *)
Fixpoint contains (p s : string) : bool :=
  startswith p s ||
  match s with
  | EmptyString => false
  | String _ s' => contains p s'
  end.

(** [s.endswith(p)]. *)
Fixpoint endswith (p s : string) : bool :=
  String.eqb p s ||
  match s with
  | EmptyString => false
  | String _ s' => endswith p s'
  end.

(** [s.replace(old, new)] for a non-empty [old]: the text is scanned from the
    left, every occurrence of [old] found is replaced by [new] and the scan
    resumes behind the occurrence (occurrences do not overlap).  [skip]
    counts the characters of a matched occurrence still to be dropped. *)
Fixpoint replace_from (old new : string) (skip : nat) (s : string) : string :=
  match s with
  | EmptyString => EmptyString
  | String c s' =>
      match skip with
      | S k => replace_from old new k s'
      | O =>
          if startswith old s
          then new +:+ replace_from old new (Nat.pred (String.length old)) s'
          else String c (replace_from old new O s')
      end
  end.

Definition replace (old new s : string) : string := replace_from old new O s.

(** [c in s] for a single character. *)
Fixpoint mem (c : ascii) (s : string) : bool :=
  match s with
  | EmptyString => false
  | String b s' => Ascii.eqb c b || mem c s'
  end.

(** [s.split(sep)] for a one-character separator. *)
Fixpoint split (sep : ascii) (s : string) : list string :=
  match s with
  | EmptyString => [EmptyString]
  | String c s' =>
      if Ascii.eqb c sep then EmptyString :: split sep s'
      else match split sep s' with
           | [] => [String c EmptyString]
           | w :: ws => String c w :: ws
           end
  end.

(** [sep.join(l)]. *)
Fixpoint join (sep : string) (l : list string) : string :=
  match l with
  | [] => EmptyString
  | [w] => w
  | w :: ws => w +:+ sep +:+ join sep ws
  end.

(** [str(n)] for a Python [int]. *)
Definition of_int (n : Z) : string := NilZero.string_of_int (Z.to_int n).

(** [c * n] for a one-character string. *)
Fixpoint repeat (c : ascii) (n : nat) : string :=
  match n with
  | O => EmptyString
  | S k => String c (repeat c k)
  end.

(** [s.zfill(width)]: text at least [width] long is returned as it is;
    otherwise zeros are put in front, behind a leading sign if there is one. *)
Definition zfill (width : nat) (s : string) : string :=
  if Nat.leb width (String.length s) then s
  else
    let fill := width - String.length s in
    match s with
    | String c s' =>
        if Ascii.eqb c "+" || Ascii.eqb c "-"
        then String c (repeat "0" fill +:+ s')
        else repeat "0" fill +:+ s
    | EmptyString => repeat "0" fill
    end.

End PyStr.

(** ** hashlib.sha1

    [utils.sha1hash] is not defined in [audio.py]; its name and the way
    [metadataDirectory] slices its result say what it returns: the SHA-1 hex
    digest of the guid.  SHA-1 works on 32-bit words, kept here as [Z] with
    the wrap-around written out. *)

Module Hashlib.

Local Open Scope Z_scope.

Definition w32 (x : Z) : Z := x mod 2 ^ 32.

Definition rotl (n x : Z) : Z :=
  w32 (Z.lor (Z.shiftl x n) (Z.shiftr x (32 - n))).

Definition bytes_of_string (s : string) : list Z :=
  List.map (fun c => Z.of_N (N_of_ascii c)) (list_ascii_of_string s).

(** Big-endian encoding of [x] on [n] bytes. *)
Fixpoint be_bytes (n : nat) (x : Z) : list Z :=
  match n with
  | O => []
  | S k => (Z.shiftr x (8 * Z.of_nat k)) mod 256 :: be_bytes k x
  end.

(** The message, a [0x80] byte, zeros up to 56 modulo 64, and the message
    length in bits on 8 bytes. *)
Definition pad (msg : list Z) : list Z :=
  let len := Z.of_nat (List.length msg) in
  msg ++ [128] ++ List.repeat 0 (Z.to_nat ((55 - len) mod 64)) ++ be_bytes 8 (8 * len).

Fixpoint words_of_bytes (n : nat) (bs : list Z) : list Z :=
  match n with
  | O => []
  | S k =>
      match bs with
      | b0 :: b1 :: b2 :: b3 :: rest =>
          (b0 * 2 ^ 24 + b1 * 2 ^ 16 + b2 * 2 ^ 8 + b3) :: words_of_bytes k rest
      | _ => []
      end
  end.

(** Message schedule, newest word first: [w t] is the rotation of
    [w (t-3) xor w (t-8) xor w (t-14) xor w (t-16)]. *)
Fixpoint schedule_rev (n : nat) (ws : list Z) : list Z :=
  match n with
  | O => ws
  | S k =>
      let x := Z.lxor (Z.lxor (List.nth 2 ws 0) (List.nth 7 ws 0))
                      (Z.lxor (List.nth 13 ws 0) (List.nth 15 ws 0)) in
      schedule_rev k (rotl 1 x :: ws)
  end.

Definition schedule (block : list Z) : list Z :=
  List.rev (schedule_rev 64 (List.rev (words_of_bytes 16 block))).

Record digest := Digest { h0 : Z; h1 : Z; h2 : Z; h3 : Z; h4 : Z }.

Definition round_f (t : Z) (b c d : Z) : Z :=
  if t <? 20 then Z.lor (Z.land b c) (Z.land (Z.lxor b (2 ^ 32 - 1)) d)
  else if t <? 40 then Z.lxor (Z.lxor b c) d
  else if t <? 60 then Z.lor (Z.lor (Z.land b c) (Z.land b d)) (Z.land c d)
  else Z.lxor (Z.lxor b c) d.

Definition round_k (t : Z) : Z :=
  if t <? 20 then 0x5A827999
  else if t <? 40 then 0x6ED9EBA1
  else if t <? 60 then 0x8F1BBCDC
  else 0xCA62C1D6.

Fixpoint rounds (t : Z) (ws : list Z) (s : digest) : digest :=
  match ws with
  | [] => s
  | w :: ws' =>
      let '(Digest a b c d e) := s in
      let tmp := w32 (rotl 5 a + round_f t b c d + e + round_k t + w) in
      rounds (t + 1) ws' (Digest tmp a (rotl 30 b) c d)
  end.

Definition compress (s : digest) (block : list Z) : digest :=
  let r := rounds 0 (schedule block) s in
  Digest (w32 (h0 s + h0 r)) (w32 (h1 s + h1 r)) (w32 (h2 s + h2 r))
         (w32 (h3 s + h3 r)) (w32 (h4 s + h4 r)).

Fixpoint blocks (n : nat) (bs : list Z) (s : digest) : digest :=
  match n with
  | O => s
  | S k => blocks k (List.skipn 64 bs) (compress s (List.firstn 64 bs))
  end.

Definition init : digest :=
  Digest 0x67452301 0xEFCDAB89 0x98BADCFE 0x10325476 0xC3D2E1F0.

Definition sha1 (msg : list Z) : digest :=
  let p := pad msg in
  blocks (Nat.div (List.length p) 64) p init.

Definition hexchar (x : Z) : ascii :=
  match String.get (Z.to_nat (x mod 16)) "0123456789abcdef" with
  | Some c => c
  | None => "0"%char
  end.

(** The [n] low hexadecimal digits of [x], most significant first. *)
Fixpoint hex (n : nat) (x : Z) : string :=
  match n with
  | O => EmptyString
  | S k => String (hexchar (Z.shiftr x (4 * Z.of_nat k))) (hex k x)
  end.

Definition hexdigest (d : digest) : string :=
  hex 8 (h0 d) +:+ hex 8 (h1 d) +:+ hex 8 (h2 d) +:+ hex 8 (h3 d) +:+ hex 8 (h4 d).

End Hashlib.

(** ** pathlib

    [Path(...) / segment] and [str(path)] for POSIX paths ([os.sep] is
    ["/"]).  A path is its root ([""], ["/"] or ["//"]) and its components;
    empty components and ["."] components are dropped when a segment is
    parsed, and an absolute segment replaces what was joined before it. *)

Module pathlib.

Record PurePath := { root : string; parts : list string }.

Definition is_component (w : string) : bool :=
  negb (String.eqb w "") && negb (String.eqb w ".").

Definition root_of (s : string) : string :=
  if PyStr.startswith "///" s then "/"
  else if PyStr.startswith "//" s then "//"
  else if PyStr.startswith "/" s then "/"
  else "".

Definition Path (s : string) : PurePath :=
  {| root := root_of s; parts := List.filter is_component (PyStr.split "/" s) |}.

(** [self / key]. *)
Definition truediv (self : PurePath) (key : string) : PurePath :=
  let other := Path key in
  if String.eqb (root other) "" then
    {| root := root self; parts := parts self ++ parts other |}
  else other.

(** [str(self)]. *)
Definition str (self : PurePath) : string :=
  match root self, parts self with
  | EmptyString, [] => "."
  | r, ps => r +:+ PyStr.join "/" ps
  end.

End pathlib.

Infix "//" := pathlib.truediv (at level 40, left associativity).

(** ** os.path and urllib.parse *)

Module os_path.

(** [os.path.join(a, b)] of [posixpath], on text: an absolute [b] replaces
    [a]; otherwise [b] is appended, behind a separator unless [a] is empty or
    ends with one. *)
Definition join (a b : string) : string :=
  if PyStr.startswith "/" b then b
  else if String.eqb a "" || PyStr.endswith "/" a then a +:+ b
  else a +:+ "/" +:+ b.

End os_path.

Module urllib.

(** The characters [quote] never escapes: letters, digits and [_.-~]. *)
Definition always_safe (c : ascii) : bool :=
  PyStr.mem c "ABCDEFGHIJKLMNOPQRSTUVWXYZabcdefghijklmnopqrstuvwxyz0123456789_.-~".

Definition hexchar_upper (n : N) : ascii :=
  match String.get (N.to_nat n) "0123456789ABCDEF" with
  | Some c => c
  | None => "0"%char
  end.

(** ["%{:02X}".format(byte)]. *)
Definition percent (c : ascii) : string :=
  let n := N_of_ascii c in
  String "%" (String (hexchar_upper (N.div n 16)) (String (hexchar_upper (N.modulo n 16)) "")).

(** [quote_plus(s)] with its default [safe='']: every byte of the encoded
    text that is not always safe is written [%XX], but for the space, which
    is written [+]. *)
Fixpoint quote_plus (s : string) : string :=
  match s with
  | EmptyString => EmptyString
  | String c s' =>
      if always_safe c then String c (quote_plus s')
      else if Ascii.eqb c " " then String "+" (quote_plus s')
      else percent c +:+ quote_plus s'
  end.

(** The value of a hexadecimal digit (0 for any other character). *)
Fixpoint index_of (c : ascii) (s : string) : N :=
  match s with
  | EmptyString => 0
  | String b s' => if Ascii.eqb c b then 0 else N.succ (index_of c s')
  end.

Definition hexval (c : ascii) : N :=
  let n := index_of c "0123456789ABCDEF" in
  if N.ltb n 16 then n else 0.

(** [unquote_plus(s)] on text that [quote_plus] wrote: [+] is a space and
    [%XX] the byte [XX].  [audio.py] does not call it; it reads a sync
    location back. *)
Fixpoint unquote_plus (s : string) : string :=
  match s with
  | EmptyString => EmptyString
  | String c s' =>
      if Ascii.eqb c "+" then String " " (unquote_plus s')
      else if Ascii.eqb c "%" then
        match s' with
        | String a (String b s'') =>
            String (ascii_of_N (16 * hexval a + hexval b)) (unquote_plus s'')
        | _ => String c (unquote_plus s')
        end
      else String c (unquote_plus s')
  end.

(** The characters [quote_plus] can write. *)
Definition quoted_char (c : ascii) : bool :=
  always_safe c || Ascii.eqb c "%" || Ascii.eqb c "+".

End urllib.

(** ** Python values, objects and XML elements *)

Inductive pyval :=
| PNone
| PBool (b : bool)
| PInt (n : Z)
| PFloat (x : float)
| PStr (s : string)
| PDatetime (t : Z).

Inductive pytype := int | float.

Inductive exn :=
| BadRequest (msg : string)
| AttributeError
| IndexError.

Inductive result (A : Type) :=
| Ok (a : A)
| Raise (e : exn).
Arguments Ok {A} a.
Arguments Raise {A} e.

Definition bind {A B : Type} (r : result A) (k : A -> result B) : result B :=
  match r with
  | Ok a => k a
  | Raise e => Raise e
  end.

Notation "x <- r ;; k" := (bind r (fun x => k))
  (at level 100, r at next level, right associativity).

(** The classes of [audio.py], and [Playlist], which [Artist.station] names. *)
Inductive plexclass :=
| AudioCls | ArtistCls | AlbumCls | TrackCls
| TrackSessionCls | TrackHistoryCls | PlaylistCls.

(** An instance: its class and its [__dict__]. *)
Record PlexObject := { cls : plexclass; dict : gmap string pyval }.

(** An XML element: only its attribute dictionary is read by the loaders. *)
Record Element := { tag : string; attrib : gmap string string }.

(** [self.name]: an [AttributeError] when the attribute was never set.  The
    reload hook that [PlexPartialObject] puts on reads of attributes that are
    [None] is outside [audio.py]; a read is a read of [__dict__]. *)
Definition getattr (self : PlexObject) (name : string) : result pyval :=
  match dict self !! name with
  | Some v => Ok v
  | None => Raise AttributeError
  end.

(** [self.name = v]: a write to [__dict__].  The hook that
    [PlexObject.__setattr__] puts on assignments of [None] (an earlier value
    is kept during an automatic reload) is outside [audio.py]; for a value
    other than [None] the write is the plain one. *)
Definition setattr (self : PlexObject) (name : string) (v : pyval) : PlexObject :=
  {| cls := cls self; dict := <[name := v]> (dict self) |}.

(** [data.attrib.get(name)] and [data.attrib.get(name, default)]. *)
Definition attrib_get (data : Element) (name : string) : pyval :=
  match attrib data !! name with
  | Some s => PStr s
  | None => PNone
  end.

Definition attrib_get_d (data : Element) (name : string) (default : pyval) : pyval :=
  match attrib data !! name with
  | Some s => PStr s
  | None => default
  end.

(** [isinstance(v, int)]; [bool] is a subclass of [int]. *)
Definition isinstance_int (v : pyval) : bool :=
  match v with
  | PInt _ | PBool _ => true
  | _ => false
  end.

Definition is_None (v : pyval) : bool :=
  match v with
  | PNone => true
  | _ => false
  end.

(** ** The collaborators in [plexapi.utils] and [plexapi.base]

    What [audio.py] imports and does not define: the conversion of attribute
    text by [int()] and [float()], [utils.toDatetime], the printing of floats
    and datetimes, and the loaders of the [Playable], [PlexSession] and
    [PlexHistory] mix-ins, which assign attributes of their own. *)

Class Utils := {
  coerce : pytype -> pyval -> pyval;
  toDatetime : pyval -> option string -> pyval;
  repr : pyval -> string;
}.

Class Base := {
  Playable_loadData : PlexObject -> Element -> PlexObject;
  PlexSession_loadData : PlexObject -> Element -> PlexObject;
  PlexHistory_loadData : PlexObject -> Element -> PlexObject;
}.

(** [str(v)], as f-strings apply it; the printing of floats and datetimes
    is the collaborators'. *)
Definition py_str `{Utils} (v : pyval) : string :=
  match v with
  | PNone => "None"
  | PBool true => "True"
  | PBool false => "False"
  | PInt n => PyStr.of_int n
  | PStr s => s
  | _ => repr v
  end.

(** The calls that leave [audio.py]: the fetch layer of [PlexObject] and the
    search interface of the owning library section.  Keyword arguments are
    kept in the order they are written. *)
Inductive request :=
| fetchItem (ekey : string) (cls : option plexclass) (kwargs : list (string * pyval))
| fetchItems (ekey : string) (cls : option plexclass) (kwargs : list (string * pyval))
| section_search (libtype : string) (filters : list (string * pyval))
    (sort : string) (limit : Z).

Module utils.
Section WithUtils.
Context `{Utils}.

(** Modelled from the spec: [utils.cast] is imported by [audio.py] and not
    defined there.  The value coercion "converts raw string attributes to
    typed values (integer, float, timestamp), tolerating missing/malformed
    input by yielding an absent value rather than failing": an absent value
    stays absent, an integer cast to an integer is itself, and the conversion
    of anything else is the collaborator's. *)
Definition cast (func : pytype) (value : pyval) : pyval :=
  match value with
  | PNone => PNone
  | PInt n =>
      match func with
      | int => PInt n
      | float => coerce func value
      end
  | _ => coerce func value
  end.

(** Modelled from the spec: [utils.joinArgs] is imported by [audio.py] and
    not defined there.  The similarity query is
    "<key>/nearest?limit=<n>&maxDistance=<f> (parameters present only if
    supplied, in that order)": nothing for no parameter, otherwise ["?"] and
    the [name=value] pairs of the dictionary joined by ["&"]. *)
Definition joinArgs (args : list (string * pyval)) : string :=
  match args with
  | [] => ""
  | _ => "?" +:+ PyStr.join "&" (List.map (fun kv => fst kv +:+ "=" +:+ py_str (snd kv)) args)
  end.

End WithUtils.

(** Modelled from the spec: [utils.sha1hash] is imported by [audio.py] and not
    defined there.  The metadata path is formed by "apply a content hash" to
    the guid; the name says which one, and the result is sliced as text: the
    SHA-1 hex digest of the encoded guid.  A guid that is not text has no
    [encode] method. *)
Definition sha1hash (guid : pyval) : result string :=
  match guid with
  | PStr g => Ok (Hashlib.hexdigest (Hashlib.sha1 (Hashlib.bytes_of_string g)))
  | _ => Raise AttributeError
  end.

End utils.

(** ** Python built-ins used on attribute values *)

(** [v.replace(old, new)]: only text has the method. *)
Definition str_replace (v : pyval) (old new : string) : result pyval :=
  match v with
  | PStr s => Ok (PStr (PyStr.replace old new s))
  | _ => Raise AttributeError
  end.

(** [s[0]] and [s[1:]]. *)
Definition str_first (s : string) : result string :=
  match s with
  | EmptyString => Raise IndexError
  | String c _ => Ok (String c EmptyString)
  end.

Definition str_rest (s : string) : string :=
  match s with
  | EmptyString => EmptyString
  | String _ s' => s'
  end.

(** [d[k] = v] on a dictionary kept in insertion order. *)
Fixpoint dict_set (d : list (string * pyval)) (k : string) (v : pyval) : list (string * pyval) :=
  match d with
  | [] => [(k, v)]
  | (k', v') :: d' =>
      if String.eqb k' k then (k', v) :: d' else (k', v') :: dict_set d' k v
  end.

(** ** What the other methods need

    Exceptions of Python itself, truth values, keyword dictionaries, and the
    collaborators the download and sync methods call. *)

(** An exception of [plexapi] or of a built-in, or a [TypeError]. *)
Inductive error :=
| Plex (e : exn)
| TypeError.

Inductive outcome (A : Type) :=
| Done (a : A)
| Fail (e : error).
Arguments Done {A} a.
Arguments Fail {A} e.

Definition lift {A : Type} (r : result A) : outcome A :=
  match r with
  | Ok a => Done a
  | Raise e => Fail (Plex e)
  end.

Definition obind {A B : Type} (r : outcome A) (k : A -> outcome B) : outcome B :=
  match r with
  | Done a => k a
  | Fail e => Fail e
  end.

Notation "x <~ r ;; k" := (obind r (fun x => k))
  (at level 100, r at next level, right associativity).

(** [bool(v)]. *)
Definition truth (v : pyval) : bool :=
  match v with
  | PNone => false
  | PBool b => b
  | PInt n => negb (Z.eqb n 0)
  | PFloat x => negb (PrimFloat.eqb x 0)
  | PStr s => negb (String.eqb s "")
  | PDatetime _ => true
  end.

(** [v == 1]. *)
Definition equals_one (v : pyval) : bool :=
  match v with
  | PBool b => b
  | PInt n => Z.eqb n 1
  | PFloat x => PrimFloat.eqb x 1
  | _ => false
  end.

(** A keyword argument: a value, or a dictionary of values. *)
Inductive kwvalue :=
| KVal (v : pyval)
| KDict (d : list (string * pyval)).

(** [d.get(k)], [k in d] and [d.pop(k, default)] on a dictionary kept in
    insertion order; [dict_pop] gives the value and what is left. *)
Fixpoint dict_get {V : Type} (d : list (string * V)) (k : string) : option V :=
  match d with
  | [] => None
  | (k', v) :: d' => if String.eqb k' k then Some v else dict_get d' k
  end.

Definition dict_has {V : Type} (d : list (string * V)) (k : string) : bool :=
  match dict_get d k with
  | Some _ => true
  | None => false
  end.

Fixpoint dict_del {V : Type} (d : list (string * V)) (k : string) : list (string * V) :=
  match d with
  | [] => []
  | (k', v) :: d' => if String.eqb k' k then dict_del d' k else (k', v) :: dict_del d' k
  end.

Definition dict_pop {V : Type} (d : list (string * V)) (k : string) (default : V)
    : V * list (string * V) :=
  match dict_get d k with
  | Some v => (v, dict_del d k)
  | None => (default, d)
  end.

(** The calls on the owning library section that carry keyword arguments. *)
Inductive section_request :=
| section_get (title : pyval) (libtype : string) (filters : list (string * pyval))
| section_search_kw (libtype : string) (filters : list (string * pyval))
    (kwargs : list (string * kwvalue)).

(** [Playable.download(savepath, keep_original_name, **kwargs)] of a track:
    the paths of the files it wrote, or the exception it raised. *)
Class Downloads := {
  Playable_download :
    PlexObject -> pyval -> pyval -> list (string * pyval) -> outcome (list string);
}.

(** The server behind an object: its machine identifier and the uuid of the
    library section with a given id ([library.sectionByID(id).uuid]). *)
Record PlexServer := {
  machineIdentifier : pyval;
  sectionByID_uuid : pyval -> result pyval;
}.

(** A [SyncItem] as [Audio.sync] fills it; [policy] holds the argument of
    [Policy.create] and [mediaSettings] the one of
    [MediaSettings.createMusic]. *)
Record SyncItem := {
  sync_title : pyval;
  rootTitle : pyval;
  contentType : pyval;
  metadataType : pyval;
  sync_machineIdentifier : pyval;
  location : string;
  policy : pyval;
  mediaSettings : pyval;
}.

(** [myplex.sync(sync_item, client=client, clientId=clientId)]. *)
Inductive myplex_request :=
| myplex_sync (sync_item : SyncItem) (client clientId : pyval).

(** ** class Audio *)

Module Audio.
Section WithUtils.
Context `{Utils}.

Definition _loadData (self : PlexObject) (data : Element) : result PlexObject :=
  let self := setattr self "addedAt" (toDatetime (attrib_get data "addedAt") None) in
  let self := setattr self "art" (attrib_get data "art") in
  let self := setattr self "artBlurHash" (attrib_get data "artBlurHash") in
  let self := setattr self "distance" (utils.cast float (attrib_get data "distance")) in
  let self := setattr self "guid" (attrib_get data "guid") in
  let self := setattr self "index" (utils.cast int (attrib_get data "index")) in
  let self := setattr self "key" (attrib_get_d data "key" (PStr "")) in
  let self := setattr self "lastRatedAt" (toDatetime (attrib_get data "lastRatedAt") None) in
  let self := setattr self "lastViewedAt" (toDatetime (attrib_get data "lastViewedAt") None) in
  let self := setattr self "librarySectionID" (utils.cast int (attrib_get data "librarySectionID")) in
  let self := setattr self "librarySectionKey" (attrib_get data "librarySectionKey") in
  let self := setattr self "librarySectionTitle" (attrib_get data "librarySectionTitle") in
  let self := setattr self "listType" (PStr "audio") in
  let self := setattr self "musicAnalysisVersion" (utils.cast int (attrib_get data "musicAnalysisVersion")) in
  let self := setattr self "ratingKey" (utils.cast int (attrib_get data "ratingKey")) in
  let self := setattr self "summary" (attrib_get data "summary") in
  let self := setattr self "thumb" (attrib_get data "thumb") in
  let self := setattr self "thumbBlurHash" (attrib_get data "thumbBlurHash") in
  let self := setattr self "title" (attrib_get data "title") in
  title <- getattr self "title" ;;
  let self := setattr self "titleSort" (attrib_get_d data "titleSort" title) in
  let self := setattr self "type" (attrib_get data "type") in
  let self := setattr self "updatedAt" (toDatetime (attrib_get data "updatedAt") None) in
  let self := setattr self "userRating" (utils.cast float (attrib_get data "userRating")) in
  let self := setattr self "viewCount" (utils.cast int (attrib_get_d data "viewCount" (PInt 0))) in
  Ok self.

Definition sonicallySimilar (self : PlexObject) (limit maxDistance : pyval)
    (kwargs : list (string * pyval)) : result request :=
  self_key <- getattr self "key" ;;
  let key := py_str self_key +:+ "/nearest" in
  let params := [] in
  let params := if is_None limit then params else dict_set params "limit" limit in
  let params := if is_None maxDistance then params else dict_set params "maxDistance" maxDistance in
  let key := key +:+ utils.joinArgs params in
  Ok (fetchItems key (Some (cls self)) kwargs).

Definition METADATA_TYPE : string := "track".

Definition _defaultSyncTitle (self : PlexObject) : result pyval :=
  getattr self "title".

Definition hasSonicAnalysis (self : PlexObject) : result bool :=
  musicAnalysisVersion <- getattr self "musicAnalysisVersion" ;;
  Ok (equals_one musicAnalysisVersion).

End WithUtils.
End Audio.

(** ** class Artist *)

Module Artist.
Section WithUtils.
Context `{Utils}.

Definition _loadData (self : PlexObject) (data : Element) : result PlexObject :=
  self <- Audio._loadData self data ;;
  let self := setattr self "albumSort" (utils.cast int (attrib_get_d data "albumSort" (PStr "-1"))) in
  let self := setattr self "audienceRating" (utils.cast float (attrib_get data "audienceRating")) in
  self_key <- getattr self "key" ;;
  key <- str_replace self_key "/children" "" ;;
  let self := setattr self "key" key in
  let self := setattr self "rating" (utils.cast float (attrib_get data "rating")) in
  let self := setattr self "theme" (attrib_get data "theme") in
  Ok self.

Definition track (self : PlexObject) (title album track : pyval) : result request :=
  self_key <- getattr self "key" ;;
  let key := py_str self_key +:+ "/allLeaves" in
  if negb (is_None title) then
    Ok (fetchItem key (Some TrackCls) [("title__iexact", title)])
  else if negb (is_None album) && negb (is_None track) then
    Ok (fetchItem key (Some TrackCls) [("parentTitle__iexact", album); ("index", track)])
  else Raise (BadRequest "Missing argument: title or album and track are required").

Definition get (self : PlexObject) (title album track_ : pyval) : result request :=
  track self title album track_.

Definition popularTracks (self : PlexObject) : result request :=
  ratingKey <- getattr self "ratingKey" ;;
  let filters :=
    [ ("album.subformat!", PStr "Compilation,Live");
      ("artist.id", ratingKey);
      ("group", PStr "title");
      ("ratingCount>>", PInt 0) ] in
  Ok (section_search "track" filters "ratingCount:desc" 100).

Definition metadataDirectory (self : PlexObject) : result string :=
  guid <- getattr self "guid" ;;
  guid_hash <- utils.sha1hash guid ;;
  first <- str_first guid_hash ;;
  Ok (pathlib.str (pathlib.Path "Metadata" // "Artists" // first
                   // (str_rest guid_hash +:+ ".bundle"))).

Definition album (self : PlexObject) (title : pyval) : result section_request :=
  ratingKey <- getattr self "ratingKey" ;;
  Ok (section_get title "album" [("artist.id", ratingKey)]).

(** [filters={**kwargs.pop('filters', {}), 'artist.id': self.ratingKey}]: the
    popped value is unpacked first, so it has to be a dictionary; then the
    call is made with [libtype='album'], [filters] and what is left of
    [kwargs], which may not name [libtype] again. *)
Definition albums (self : PlexObject) (kwargs : list (string * kwvalue))
    : outcome section_request :=
  let '(popped, kwargs) := dict_pop kwargs "filters" (KDict []) in
  match popped with
  | KDict caller_filters =>
      ratingKey <~ lift (getattr self "ratingKey") ;;
      let filters := dict_set caller_filters "artist.id" ratingKey in
      if dict_has kwargs "libtype" then Fail TypeError
      else Done (section_search_kw "album" filters kwargs)
  | KVal _ => Fail TypeError
  end.

Definition tracks (self : PlexObject) (kwargs : list (string * pyval)) : result request :=
  self_key <- getattr self "key" ;;
  let key := py_str self_key +:+ "/allLeaves" in
  Ok (fetchItems key (Some TrackCls) kwargs).

Section WithDownloads.
Context `{Downloads}.

(** [os.path.join(savepath, track.parentTitle)]: both have to be text. *)
Definition join_savepath (savepath parentTitle : pyval) : outcome pyval :=
  match savepath, parentTitle with
  | PStr a, PStr b => Done (PStr (os_path.join a b))
  | _, _ => Fail TypeError
  end.

(** The loop of [download] over the tracks still to do, [filepaths] being
    what was collected so far. *)
Fixpoint download_loop (todo : list PlexObject) (filepaths : list string)
    (savepath keep_original_name subfolders : pyval) (kwargs : list (string * pyval))
    : outcome (list string) :=
  match todo with
  | [] => Done filepaths
  | track :: todo' =>
      _savepath <~ (if truth subfolders
                    then parentTitle <~ lift (getattr track "parentTitle") ;;
                         join_savepath savepath parentTitle
                    else Done savepath) ;;
      paths <~ Playable_download track _savepath keep_original_name kwargs ;;
      download_loop todo' (filepaths ++ paths) savepath keep_original_name subfolders kwargs
  end.

(** [response] is what the fetch layer answers to [self.tracks()]. *)
Definition download (self : PlexObject) (response : request -> list PlexObject)
    (savepath keep_original_name subfolders : pyval) (kwargs : list (string * pyval))
    : outcome (list string) :=
  all_tracks <~ lift (tracks self []) ;;
  download_loop (response all_tracks) [] savepath keep_original_name subfolders kwargs.

End WithDownloads.

End WithUtils.
End Artist.

(** ** class Album *)

Module Album.
Section WithUtils.
Context `{Utils}.

Definition _loadData (self : PlexObject) (data : Element) : result PlexObject :=
  self <- Audio._loadData self data ;;
  let self := setattr self "audienceRating" (utils.cast float (attrib_get data "audienceRating")) in
  self_key <- getattr self "key" ;;
  key <- str_replace self_key "/children" "" ;;
  let self := setattr self "key" key in
  let self := setattr self "leafCount" (utils.cast int (attrib_get data "leafCount")) in
  let self := setattr self "loudnessAnalysisVersion"
                (utils.cast int (attrib_get data "loudnessAnalysisVersion")) in
  let self := setattr self "originallyAvailableAt"
                (toDatetime (attrib_get data "originallyAvailableAt") (Some "%Y-%m-%d")) in
  let self := setattr self "parentGuid" (attrib_get data "parentGuid") in
  let self := setattr self "parentKey" (attrib_get data "parentKey") in
  let self := setattr self "parentRatingKey" (utils.cast int (attrib_get data "parentRatingKey")) in
  let self := setattr self "parentTheme" (attrib_get data "parentTheme") in
  let self := setattr self "parentThumb" (attrib_get data "parentThumb") in
  let self := setattr self "parentTitle" (attrib_get data "parentTitle") in
  let self := setattr self "rating" (utils.cast float (attrib_get data "rating")) in
  let self := setattr self "studio" (attrib_get data "studio") in
  let self := setattr self "viewedLeafCount" (utils.cast int (attrib_get data "viewedLeafCount")) in
  let self := setattr self "year" (utils.cast int (attrib_get data "year")) in
  Ok self.

Definition track (self : PlexObject) (title track : pyval) : result request :=
  self_key <- getattr self "key" ;;
  let key := py_str self_key +:+ "/children" in
  if negb (is_None title) && negb (isinstance_int title) then
    Ok (fetchItem key (Some TrackCls) [("title__iexact", title)])
  else if negb (is_None track) || isinstance_int title then
    let index := if isinstance_int title then title else track in
    self_title <- getattr self "title" ;;
    Ok (fetchItem key (Some TrackCls) [("parentTitle__iexact", self_title); ("index", index)])
  else Raise (BadRequest "Missing argument: title or track is required").

Definition get (self : PlexObject) (title track_ : pyval) : result request :=
  track self title track_.

Definition metadataDirectory (self : PlexObject) : result string :=
  guid <- getattr self "guid" ;;
  guid_hash <- utils.sha1hash guid ;;
  first <- str_first guid_hash ;;
  Ok (pathlib.str (pathlib.Path "Metadata" // "Albums" // first
                   // (str_rest guid_hash +:+ ".bundle"))).

Definition tracks (self : PlexObject) (kwargs : list (string * pyval)) : result request :=
  self_key <- getattr self "key" ;;
  let key := py_str self_key +:+ "/children" in
  Ok (fetchItems key (Some TrackCls) kwargs).

Section WithDownloads.
Context `{Downloads}.

Fixpoint download_loop (todo : list PlexObject) (filepaths : list string)
    (savepath keep_original_name : pyval) (kwargs : list (string * pyval))
    : outcome (list string) :=
  match todo with
  | [] => Done filepaths
  | track :: todo' =>
      paths <~ Playable_download track savepath keep_original_name kwargs ;;
      download_loop todo' (filepaths ++ paths) savepath keep_original_name kwargs
  end.

(** [response] is what the fetch layer answers to [self.tracks()]. *)
Definition download (self : PlexObject) (response : request -> list PlexObject)
    (savepath keep_original_name : pyval) (kwargs : list (string * pyval))
    : outcome (list string) :=
  all_tracks <~ lift (tracks self []) ;;
  download_loop (response all_tracks) [] savepath keep_original_name kwargs.

End WithDownloads.

Definition _defaultSyncTitle (self : PlexObject) : result pyval :=
  parentTitle <- getattr self "parentTitle" ;;
  title <- getattr self "title" ;;
  Ok (PStr (py_str parentTitle +:+ " - " +:+ py_str title)).

End WithUtils.
End Album.

(** ** class Track *)

Module Track.
Section WithBase.
Context `{Utils} `{Base}.

Definition _loadData (self : PlexObject) (data : Element) : result PlexObject :=
  self <- Audio._loadData self data ;;
  let self := Playable_loadData self data in
  let self := setattr self "audienceRating" (utils.cast float (attrib_get data "audienceRating")) in
  let self := setattr self "chapterSource" (attrib_get data "chapterSource") in
  let self := setattr self "duration" (utils.cast int (attrib_get data "duration")) in
  let self := setattr self "grandparentArt" (attrib_get data "grandparentArt") in
  let self := setattr self "grandparentGuid" (attrib_get data "grandparentGuid") in
  let self := setattr self "grandparentKey" (attrib_get data "grandparentKey") in
  let self := setattr self "grandparentRatingKey"
                (utils.cast int (attrib_get data "grandparentRatingKey")) in
  let self := setattr self "grandparentTheme" (attrib_get data "grandparentTheme") in
  let self := setattr self "grandparentThumb" (attrib_get data "grandparentThumb") in
  let self := setattr self "grandparentTitle" (attrib_get data "grandparentTitle") in
  let self := setattr self "originalTitle" (attrib_get data "originalTitle") in
  let self := setattr self "parentGuid" (attrib_get data "parentGuid") in
  let self := setattr self "parentIndex" (utils.cast int (attrib_get data "parentIndex")) in
  let self := setattr self "parentKey" (attrib_get data "parentKey") in
  let self := setattr self "parentRatingKey" (utils.cast int (attrib_get data "parentRatingKey")) in
  let self := setattr self "parentThumb" (attrib_get data "parentThumb") in
  let self := setattr self "parentTitle" (attrib_get data "parentTitle") in
  let self := setattr self "primaryExtraKey" (attrib_get data "primaryExtraKey") in
  let self := setattr self "rating" (utils.cast float (attrib_get data "rating")) in
  let self := setattr self "ratingCount" (utils.cast int (attrib_get data "ratingCount")) in
  let self := setattr self "skipCount" (utils.cast int (attrib_get data "skipCount")) in
  let self := setattr self "sourceURI" (attrib_get data "source") in
  let self := setattr self "viewOffset" (utils.cast int (attrib_get_d data "viewOffset" (PInt 0))) in
  let self := setattr self "year" (utils.cast int (attrib_get data "year")) in
  Ok self.

Definition metadataDirectory (self : PlexObject) : result string :=
  guid <- getattr self "parentGuid" ;;
  guid_hash <- utils.sha1hash guid ;;
  first <- str_first guid_hash ;;
  Ok (pathlib.str (pathlib.Path "Metadata" // "Albums" // first
                   // (str_rest guid_hash +:+ ".bundle"))).

Definition trackNumber (self : PlexObject) : result pyval :=
  getattr self "index".

Definition _prettyfilename (self : PlexObject) : result string :=
  grandparentTitle <- getattr self "grandparentTitle" ;;
  parentTitle <- getattr self "parentTitle" ;;
  number <- trackNumber self ;;
  title <- getattr self "title" ;;
  Ok (py_str grandparentTitle +:+ " - " +:+ py_str parentTitle +:+ " - "
      +:+ PyStr.zfill 2 (py_str number) +:+ " - " +:+ py_str title).

Definition _defaultSyncTitle (self : PlexObject) : result pyval :=
  grandparentTitle <- getattr self "grandparentTitle" ;;
  parentTitle <- getattr self "parentTitle" ;;
  title <- getattr self "title" ;;
  Ok (PStr (py_str grandparentTitle +:+ " - " +:+ py_str parentTitle
            +:+ " - " +:+ py_str title)).

End WithBase.
End Track.

(** ** class TrackSession and class TrackHistory *)

Module TrackSession.
Section WithBase.
Context `{Utils} `{Base}.

Definition _loadData (self : PlexObject) (data : Element) : result PlexObject :=
  self <- Track._loadData self data ;;
  let self := PlexSession_loadData self data in
  Ok self.

End WithBase.
End TrackSession.

Module TrackHistory.
Section WithBase.
Context `{Utils} `{Base}.

Definition _loadData (self : PlexObject) (data : Element) : result PlexObject :=
  self <- Track._loadData self data ;;
  let self := PlexHistory_loadData self data in
  Ok self.

End WithBase.
End TrackHistory.

(** ** Audio.sync

    [Audio.sync] calls [self._defaultSyncTitle()], which [Album] and [Track]
    override; it is placed behind them.  [TrackSession] and [TrackHistory]
    inherit the method of [Track].

    [sync] is the method from the point where [self._server.myPlexAccount()]
    has returned the account: the account is not part of [PlexServer], a
    failure of that first call is not represented, and the final
    [myplex.sync(...)] is the request the model returns. *)

Module AudioSync.
Section WithUtils.
Context `{Utils}.

(** [self._defaultSyncTitle()], by the class of [self]. *)
Definition _defaultSyncTitle (self : PlexObject) : result pyval :=
  match cls self with
  | AlbumCls => Album._defaultSyncTitle self
  | TrackCls | TrackSessionCls | TrackHistoryCls => Track._defaultSyncTitle self
  | _ => Audio._defaultSyncTitle self
  end.

(** [quote_plus(v)]: [None] and numbers are refused. *)
Definition quote_plus (v : pyval) : outcome string :=
  match v with
  | PStr s => Done (urllib.quote_plus s)
  | _ => Fail TypeError
  end.

Definition sync (server : PlexServer) (self : PlexObject)
    (bitrate client clientId limit title : pyval) : outcome myplex_request :=
  sync_title <~ lift (if truth title then Ok title else _defaultSyncTitle self) ;;
  root <~ lift (getattr self "title") ;;
  content <~ lift (getattr self "listType") ;;
  sectionID <~ lift (getattr self "librarySectionID") ;;
  uuid <~ lift (sectionByID_uuid server sectionID) ;;
  self_key <~ lift (getattr self "key") ;;
  quoted <~ quote_plus self_key ;;
  let sync_item :=
    {| sync_title := sync_title;
       rootTitle := root;
       contentType := content;
       metadataType := PStr Audio.METADATA_TYPE;
       sync_machineIdentifier := machineIdentifier server;
       location := "library://" +:+ py_str uuid +:+ "/item/" +:+ quoted;
       policy := limit;
       mediaSettings := bitrate |} in
  Done (myplex_sync sync_item client clientId).

End WithUtils.
End AudioSync.

(** ** Definitions used to state the properties *)

(** The attribute [name] of the object a loader returns. *)
Definition loaded_attr (r : result PlexObject) (name : string) : result pyval :=
  self <- r ;; getattr self name.

(** Assigning a list of attributes in order. *)
Definition assign_all (self : PlexObject) (l : list (string * pyval)) : PlexObject :=
  List.fold_left (fun o kv => setattr o (fst kv) (snd kv)) l self.

Arguments setattr : simpl never.
Arguments getattr : simpl never.

(** The value last assigned to [name] in a list of assignments. *)
Fixpoint last_assigned (name : string) (l : list (string * pyval)) : option pyval :=
  match l with
  | [] => None
  | (k, v) :: l' =>
      match last_assigned name l' with
      | Some w => Some w
      | None => if String.eqb k name then Some v else None
      end
  end.

Section TrackFields.
Context `{Utils}.

(** The assignments [Track._loadData] makes after the two inherited loaders,
    in the order of the source. *)
Definition Track_fields (data : Element) : list (string * pyval) :=
  [ ("audienceRating", utils.cast float (attrib_get data "audienceRating"));
    ("chapterSource", attrib_get data "chapterSource");
    ("duration", utils.cast int (attrib_get data "duration"));
    ("grandparentArt", attrib_get data "grandparentArt");
    ("grandparentGuid", attrib_get data "grandparentGuid");
    ("grandparentKey", attrib_get data "grandparentKey");
    ("grandparentRatingKey", utils.cast int (attrib_get data "grandparentRatingKey"));
    ("grandparentTheme", attrib_get data "grandparentTheme");
    ("grandparentThumb", attrib_get data "grandparentThumb");
    ("grandparentTitle", attrib_get data "grandparentTitle");
    ("originalTitle", attrib_get data "originalTitle");
    ("parentGuid", attrib_get data "parentGuid");
    ("parentIndex", utils.cast int (attrib_get data "parentIndex"));
    ("parentKey", attrib_get data "parentKey");
    ("parentRatingKey", utils.cast int (attrib_get data "parentRatingKey"));
    ("parentThumb", attrib_get data "parentThumb");
    ("parentTitle", attrib_get data "parentTitle");
    ("primaryExtraKey", attrib_get data "primaryExtraKey");
    ("rating", utils.cast float (attrib_get data "rating"));
    ("ratingCount", utils.cast int (attrib_get data "ratingCount"));
    ("skipCount", utils.cast int (attrib_get data "skipCount"));
    ("sourceURI", attrib_get data "source");
    ("viewOffset", utils.cast int (attrib_get_d data "viewOffset" (PInt 0)));
    ("year", utils.cast int (attrib_get data "year")) ].

(** The assignments of [Audio._loadData], in the order of the source. *)
Definition Audio_fields (data : Element) : list (string * pyval) :=
  [ ("addedAt", toDatetime (attrib_get data "addedAt") None);
    ("art", attrib_get data "art");
    ("artBlurHash", attrib_get data "artBlurHash");
    ("distance", utils.cast float (attrib_get data "distance"));
    ("guid", attrib_get data "guid");
    ("index", utils.cast int (attrib_get data "index"));
    ("key", attrib_get_d data "key" (PStr ""));
    ("lastRatedAt", toDatetime (attrib_get data "lastRatedAt") None);
    ("lastViewedAt", toDatetime (attrib_get data "lastViewedAt") None);
    ("librarySectionID", utils.cast int (attrib_get data "librarySectionID"));
    ("librarySectionKey", attrib_get data "librarySectionKey");
    ("librarySectionTitle", attrib_get data "librarySectionTitle");
    ("listType", PStr "audio");
    ("musicAnalysisVersion", utils.cast int (attrib_get data "musicAnalysisVersion"));
    ("ratingKey", utils.cast int (attrib_get data "ratingKey"));
    ("summary", attrib_get data "summary");
    ("thumb", attrib_get data "thumb");
    ("thumbBlurHash", attrib_get data "thumbBlurHash");
    ("title", attrib_get data "title");
    ("titleSort", attrib_get_d data "titleSort" (attrib_get data "title"));
    ("type", attrib_get data "type");
    ("updatedAt", toDatetime (attrib_get data "updatedAt") None);
    ("userRating", utils.cast float (attrib_get data "userRating"));
    ("viewCount", utils.cast int (attrib_get_d data "viewCount" (PInt 0))) ].

(** The key a container loader stores. *)
Definition container_key (data : Element) : pyval :=
  PStr (PyStr.replace "/children" "" (default "" (attrib data !! "key"))).

(** The assignments of [Artist._loadData] and of [Album._loadData] behind the
    ones of the Audio loader. *)
Definition Artist_fields (data : Element) : list (string * pyval) :=
  Audio_fields data ++
  [ ("albumSort", utils.cast int (attrib_get_d data "albumSort" (PStr "-1")));
    ("audienceRating", utils.cast float (attrib_get data "audienceRating"));
    ("key", container_key data);
    ("rating", utils.cast float (attrib_get data "rating"));
    ("theme", attrib_get data "theme") ].

Definition Album_fields (data : Element) : list (string * pyval) :=
  Audio_fields data ++
  [ ("audienceRating", utils.cast float (attrib_get data "audienceRating"));
    ("key", container_key data);
    ("leafCount", utils.cast int (attrib_get data "leafCount"));
    ("loudnessAnalysisVersion", utils.cast int (attrib_get data "loudnessAnalysisVersion"));
    ("originallyAvailableAt",
       toDatetime (attrib_get data "originallyAvailableAt") (Some "%Y-%m-%d"));
    ("parentGuid", attrib_get data "parentGuid");
    ("parentKey", attrib_get data "parentKey");
    ("parentRatingKey", utils.cast int (attrib_get data "parentRatingKey"));
    ("parentTheme", attrib_get data "parentTheme");
    ("parentThumb", attrib_get data "parentThumb");
    ("parentTitle", attrib_get data "parentTitle");
    ("rating", utils.cast float (attrib_get data "rating"));
    ("studio", attrib_get data "studio");
    ("viewedLeafCount", utils.cast int (attrib_get data "viewedLeafCount"));
    ("year", utils.cast int (attrib_get data "year")) ].

End TrackFields.

(** The names a list of assignments writes. *)
Definition assigned_names (l : list (string * pyval)) : list string := List.map fst l.

(** The directory [Artist.download] passes to the download of a track:
    [os.path.join(savepath, track.parentTitle) if subfolders else savepath]. *)
Definition track_savepath (savepath subfolders : pyval) (track : PlexObject)
    : outcome pyval :=
  if truth subfolders
  then parentTitle <~ lift (getattr track "parentTitle") ;;
       Artist.join_savepath savepath parentTitle
  else Done savepath.


Fixpoint all_chars (P : ascii -> bool) (s : string) : bool :=
  match s with
  | EmptyString => true
  | String c s' => P c && all_chars P s'
  end.

Definition is_hexdigit (c : ascii) : bool := PyStr.mem c "0123456789abcdef".

(** The path of the spec: [Metadata/<Kind>/<firstHashChar>/<remainingHashChars>.bundle]. *)
Definition spec_bundle_path (kind hash : string) : string :=
  "Metadata/" +:+ kind +:+ "/" +:+ String.substring 0 1 hash +:+ "/"
    +:+ String.substring 1 (String.length hash - 1) hash +:+ ".bundle".

(** ** Fixtures

    Stand-ins for the collaborators, enough to run the loaders and the
    methods on concrete elements: integer text is read in decimal, anything
    malformed is absent, and each mix-in loader assigns the attributes it
    owns. *)

Module Fixture.

Definition parse_int (s : string) : pyval :=
  match NilZero.int_of_string s with
  | Some n => PInt (Z.of_int n)
  | None => PNone
  end.

Definition parse_float (s : string) : pyval :=
  if String.eqb s "0.25" then PFloat 0.25
  else if String.eqb s "0.5" then PFloat 0.5
  else PNone.

Definition print_float (x : PrimFloat.float) : string :=
  if PrimFloat.eqb x 0.25 then "0.25"
  else if PrimFloat.eqb x 0.5 then "0.5"
  else "nan".

#[export] Instance utils : Utils := {|
  coerce := fun func v =>
    match v, func with
    | PStr s, int => parse_int s
    | PStr s, float => parse_float s
    | _, _ => PNone
    end;
  toDatetime := fun v _ =>
    match v with
    | PStr s => match parse_int s with PInt t => PDatetime t | _ => PNone end
    | _ => PNone
    end;
  repr := fun v =>
    match v with
    | PFloat x => print_float x
    | _ => "<object>"
    end;
|}.

#[export] Instance base : Base := {|
  Playable_loadData := fun self data =>
    let self := setattr self "playlistItemID" (utils.cast int (attrib_get data "playlistItemID")) in
    let self := setattr self "playQueueItemID" (utils.cast int (attrib_get data "playQueueItemID")) in
    self;
  PlexSession_loadData := fun self data =>
    let self := setattr self "sessionKey" (utils.cast int (attrib_get data "sessionKey")) in
    self;
  PlexHistory_loadData := fun self data =>
    let self := setattr self "accountID" (utils.cast int (attrib_get data "accountID")) in
    let self := setattr self "viewedAt" (toDatetime (attrib_get data "viewedAt") None) in
    self;
|}.

(** Scenario 1 of the spec: an artist fragment embedded in a listing. *)
Definition jason_mraz : Element :=
  {| tag := "Directory";
     attrib := <["ratingKey" := "1"]> (<["title" := "Jason Mraz"]>
               (<["key" := "/library/metadata/1/children"]> ∅)) |}.

Definition blank (c : plexclass) : PlexObject := {| cls := c; dict := ∅ |}.

(** An object with the given attributes. *)
Definition object (c : plexclass) (attrs : list (string * pyval)) : PlexObject :=
  {| cls := c; dict := list_to_map attrs |}.

(** An album and a track of it. *)
Definition we_sing : PlexObject :=
  object AlbumCls
    [("key", PStr "/library/metadata/2"); ("title", PStr "We Sing")].

Definition lucky : PlexObject :=
  object TrackCls
    [ ("guid", PStr "plex://track/5d07cdb1403c640290f4b0b5");
      ("parentGuid", PStr "plex://album/5d07cd8e403c640290f180f9") ].

(** A Playable loader that also writes attributes the other loaders write. *)
Definition overwriting_base : Base := {|
  Playable_loadData := fun self data =>
    let self := setattr self "title" (PStr "written by Playable") in
    let self := setattr self "viewOffset" (PInt 99) in
    self;
  PlexSession_loadData := fun self data =>
    let self := setattr self "viewOffset" (PInt 7) in
    self;
  PlexHistory_loadData := fun self data => self;
|}.

(** A download that writes one file per track, named after the directory and
    the title, and refuses a directory that is not text. *)
Definition downloads : Downloads := {|
  Playable_download := fun track savepath keep_original_name kwargs =>
    match savepath, getattr track "title" with
    | PStr d, Ok (PStr t) => Done [d +:+ "/" +:+ t +:+ ".mp3"]
    | PNone, Ok (PStr t) => Done [t +:+ ".mp3"]
    | _, _ => Fail TypeError
    end;
|}.

Definition server : PlexServer := {|
  machineIdentifier := PStr "abc123";
  sectionByID_uuid := fun id =>
    match id with
    | PInt 3 => Ok (PStr "e9c7b0a1")
    | _ => Raise (BadRequest "Invalid library sectionID")
    end;
|}.

(** The album of scenario 1's artist, as its own fragment. *)
Definition we_sing_fragment : Element :=
  {| tag := "Directory";
     attrib := list_to_map
       [ ("ratingKey", "2"); ("key", "/library/metadata/2/children");
         ("title", "We Sing"); ("parentTitle", "Jason Mraz");
         ("librarySectionID", "3"); ("guid", "plex://album/5d07cd8e403c640290f180f9") ] |}.

Definition track_of (title parentTitle : string) (index : Z) : PlexObject :=
  object TrackCls
    [ ("title", PStr title); ("parentTitle", PStr parentTitle);
      ("grandparentTitle", PStr "Jason Mraz"); ("index", PInt index);
      ("parentGuid", PStr "plex://album/5d07cd8e403c640290f180f9") ].

Definition artist_one : PlexObject :=
  object ArtistCls [("key", PStr "/library/metadata/1"); ("ratingKey", PInt 1)].

Definition synced_album : PlexObject :=
  object AlbumCls
    [ ("title", PStr "We Sing"); ("listType", PStr "audio");
      ("librarySectionID", PInt 3); ("key", PStr "/library/metadata/2") ].

Definition lucky_track : PlexObject := track_of "Lucky" "We Sing" 3.
Definition butterfly_track : PlexObject := track_of "Butterfly" "We Dance" 1.

(** A track object without title, which [downloads] refuses. *)
Definition broken_track : PlexObject :=
  object TrackCls [("parentTitle", PStr "We Sing")].

(** Answers of the fetch layer to [tracks()]. *)
Definition two_tracks (r : request) : list PlexObject := [lucky_track; butterfly_track].
Definition tracks_with_broken (r : request) : list PlexObject :=
  [lucky_track; broken_track; butterfly_track].

(** The files [downloads] writes for a track, flat and in sub-folders. *)
Definition mp3_of (savepath : string) (track : PlexObject) : list string :=
  match getattr track "title" with
  | Ok (PStr t) => [savepath +:+ "/" +:+ t +:+ ".mp3"]
  | _ => []
  end.

Definition in_subfolder (savepath : string) (track : PlexObject) : list string :=
  match getattr track "parentTitle", getattr track "title" with
  | Ok (PStr a), Ok (PStr t) => [os_path.join savepath a +:+ "/" +:+ t +:+ ".mp3"]
  | _, _ => []
  end.

Definition album_title (track : PlexObject) : string :=
  match getattr track "parentTitle" with
  | Ok (PStr a) => a
  | _ => ""
  end.

(** Scenario 1's artist and one track of its album, as fragments that carry
    their guids, and the objects the loaders make of them. *)
Definition artist_fragment : Element :=
  {| tag := "Directory";
     attrib := list_to_map
       [ ("ratingKey", "1"); ("key", "/library/metadata/1/children");
         ("title", "Jason Mraz"); ("librarySectionID", "3");
         ("musicAnalysisVersion", "1");
         ("guid", "plex://artist/5d07bbfc403c6402904a6480") ] |}.

Definition lucky_fragment : Element :=
  {| tag := "Track";
     attrib := list_to_map
       [ ("ratingKey", "7"); ("key", "/library/metadata/7");
         ("title", "Lucky"); ("parentTitle", "We Sing");
         ("grandparentTitle", "Jason Mraz"); ("index", "3");
         ("guid", "plex://track/5d07cdb1403c640290f4b0b5");
         ("parentGuid", "plex://album/5d07cd8e403c640290f180f9") ] |}.

Definition loaded (r : result PlexObject) : PlexObject :=
  match r with
  | Ok self => self
  | Raise _ => blank AudioCls
  end.

Definition loaded_artist : PlexObject :=
  loaded (Artist._loadData (blank ArtistCls) artist_fragment).

Definition loaded_album : PlexObject :=
  loaded (Album._loadData (blank AlbumCls) we_sing_fragment).

Definition loaded_track : PlexObject :=
  loaded (Track._loadData (blank TrackCls) lucky_fragment).

End Fixture.

(** * Properties *)

(** ** The primitives on known values *)

Example replace_suffix_example :
  PyStr.replace "/children" "" "/library/metadata/1/children" = "/library/metadata/1".
Proof. vm_compute. reflexivity. Qed.

Example split_example : PyStr.split "/" "a//b/" = ["a"; ""; "b"; ""].
Proof. vm_compute. reflexivity. Qed.

Example of_int_example :
  PyStr.of_int 50 = "50" /\ PyStr.of_int (-1) = "-1" /\ PyStr.of_int 0 = "0".
Proof. repeat split; vm_compute; reflexivity. Qed.

Example path_example :
  pathlib.str (pathlib.Path "Metadata" // "Albums" // "5" // "d07.bundle")
    = "Metadata/Albums/5/d07.bundle"
  /\ pathlib.str (pathlib.Path "Metadata" // "/tmp" // "x") = "/tmp/x"
  /\ pathlib.str (pathlib.Path "Metadata" // "." // "x") = "Metadata/x".
Proof. repeat split; vm_compute; reflexivity. Qed.

(** The SHA-1 test vectors of FIPS 180. *)
Example sha1_abc :
  Hashlib.hexdigest (Hashlib.sha1 (Hashlib.bytes_of_string "abc"))
  = "a9993e364706816aba3e25717850c26c9cd0d89d".
Proof. vm_compute. reflexivity. Qed.

Example sha1_empty :
  Hashlib.hexdigest (Hashlib.sha1 (Hashlib.bytes_of_string ""))
  = "da39a3ee5e6b4b0d3255bfef95601890afd80709".
Proof. vm_compute. reflexivity. Qed.

Example sha1_two_blocks :
  Hashlib.hexdigest (Hashlib.sha1 (Hashlib.bytes_of_string
    "abcdbcdecdefdefgefghfghighijhijkijkljklmklmnlmnomnopnopq"))
  = "84983e441c3bd26ebaae4aa1f95129e5e54670f1".
Proof. vm_compute. reflexivity. Qed.

(** ** Reading attributes through assignments *)

Lemma getattr_setattr (self : PlexObject) (n m : string) (v : pyval) :
  getattr (setattr self n v) m = if String.eqb n m then Ok v else getattr self m.
Proof.
  unfold getattr, setattr; simpl.
  destruct (String.eqb_spec n m) as [->|Hne].
  - by rewrite lookup_insert_eq.
  - by rewrite lookup_insert_ne.
Qed.

Lemma cls_setattr (self : PlexObject) (n : string) (v : pyval) :
  cls (setattr self n v) = cls self.
Proof. reflexivity. Qed.

(** Reads of an attribute through a chain of assignments with literal names. *)
Ltac getattr_simpl :=
  cbn [bind];
  repeat (rewrite getattr_setattr;
          cbn [String.eqb Ascii.eqb Bool.eqb andb bind]).

Ltac run_loader :=
  cbv beta delta [loaded_attr Audio._loadData Artist._loadData Album._loadData
                  Track._loadData TrackSession._loadData TrackHistory._loadData];
  cbv zeta; getattr_simpl.

Section Scenarios.
Local Existing Instance Fixture.utils.
Local Existing Instance Fixture.base.

Example artist_scenario_1 :
  loaded_attr (Artist._loadData (Fixture.blank ArtistCls) Fixture.jason_mraz) "key"
    = Ok (PStr "/library/metadata/1")
  /\ loaded_attr (Artist._loadData (Fixture.blank ArtistCls) Fixture.jason_mraz) "titleSort"
    = Ok (PStr "Jason Mraz")
  /\ loaded_attr (Artist._loadData (Fixture.blank ArtistCls) Fixture.jason_mraz) "ratingKey"
    = Ok (PInt 1).
Proof. repeat split; vm_compute; reflexivity. Qed.

End Scenarios.

Lemma Audio_loadData_key `{Utils} (self : PlexObject) (data : Element) :
  loaded_attr (Audio._loadData self data) "key" = Ok (attrib_get_d data "key" (PStr "")).
Proof. run_loader. reflexivity. Qed.

(** ** Facts about [str.replace] *)

Lemma startswith_refl (s : string) : PyStr.startswith s s = true.
Proof.
  induction s as [|c s IH]; simpl; [reflexivity|].
  by rewrite Ascii.eqb_refl, IH.
Qed.

Lemma contains_startswith (p s : string) :
  PyStr.startswith p s = true -> PyStr.contains p s = true.
Proof. destruct s; simpl; intros ->; reflexivity. Qed.

Lemma endswith_contains (p s : string) :
  PyStr.endswith p s = true -> PyStr.contains p s = true.
Proof.
  induction s as [|c s IH]; simpl.
  - rewrite orb_false_r. intros Heq%String.eqb_eq. subst p. reflexivity.
  - intros [Heq%String.eqb_eq | Hs]%orb_true_iff.
    + subst p. by rewrite (startswith_refl (String c s)).
    + rewrite (IH Hs). apply orb_true_r.
Qed.

Lemma not_contains_not_endswith (p s : string) :
  PyStr.contains p s = false -> PyStr.endswith p s = false.
Proof.
  intros Hc. destruct (PyStr.endswith p s) eqn:He; [|reflexivity].
  apply endswith_contains in He. congruence.
Qed.

Lemma replace_from_skip_all (old new s : string) (k : nat) :
  String.length s <= k -> PyStr.replace_from old new k s = "".
Proof.
  revert k. induction s as [|c s IH]; intros k Hk; simpl in *; [reflexivity|].
  destruct k as [|k]; [lia|]. apply IH. lia.
Qed.

(** Text in which [old] does not occur is left as it is. *)
Lemma replace_absent (old new s : string) :
  PyStr.contains old s = false -> PyStr.replace old new s = s.
Proof.
  unfold PyStr.replace.
  induction s as [|c s IH]; [reflexivity|].
  intros Hc. cbn [PyStr.contains] in Hc.
  apply orb_false_iff in Hc as [Hs Hc].
  cbn [PyStr.replace_from]. rewrite Hs. f_equal. by apply IH.
Qed.

(** A match of [t] that runs into a character absent from [t] ended before
    that character. *)
Lemma startswith_app_fresh (a : ascii) (t p r : string) :
  PyStr.mem a t = false ->
  PyStr.startswith t (p +:+ String a r) = true ->
  PyStr.startswith t p = true.
Proof.
  revert p. induction t as [|b t IH]; intros p Hm Hs; [reflexivity|].
  cbn [PyStr.mem] in Hm. apply orb_false_iff in Hm as [Hab Hm].
  destruct p as [|d p]; simpl in Hs |- *.
  - apply andb_true_iff in Hs as [Hba _].
    rewrite Ascii.eqb_sym in Hab. congruence.
  - apply andb_true_iff in Hs as [-> Hs]. simpl. by apply IH.
Qed.

(** A single trailing occurrence is cut off, when the first character of
    [old] does not occur again in [old]. *)
Lemma replace_trailing (a : ascii) (t p : string) :
  PyStr.mem a t = false ->
  PyStr.contains (String a t) p = false ->
  PyStr.replace (String a t) "" (p +:+ String a t) = p.
Proof.
  intros Hm. unfold PyStr.replace.
  induction p as [|c p IH]; intros Hc.
  - change ("" +:+ String a t) with (String a t).
    cbn [PyStr.replace_from]. rewrite (startswith_refl (String a t)).
    cbn [String.length Nat.pred]. simpl String.append.
    by apply replace_from_skip_all.
  - cbn [PyStr.contains] in Hc. apply orb_false_iff in Hc as [Hs Hc].
    change (String c p +:+ String a t) with (String c (p +:+ String a t)).
    cbn [PyStr.replace_from].
    destruct (PyStr.startswith (String a t) (String c (p +:+ String a t))) eqn:Hs'.
    + exfalso. simpl in Hs, Hs'.
      apply andb_true_iff in Hs' as [Hac Hs'].
      apply startswith_app_fresh in Hs'; [|done].
      rewrite Hac, Hs' in Hs. discriminate.
    + f_equal. by apply IH.
Qed.

Lemma replace_children_trailing (p : string) :
  PyStr.contains "/children" p = false ->
  PyStr.replace "/children" "" (p +:+ "/children") = p.
Proof. apply (replace_trailing "/" "children"). reflexivity. Qed.

(** ** The key of a container entity (Artist, Album) *)

(** Both container loaders store the key attribute (the empty text when the
    fragment has none) with every occurrence of ["/children"] removed. *)
Lemma container_key_replace `{Utils} (self : PlexObject) (data : Element) :
  let k := default "" (attrib data !! "key") in
  loaded_attr (Artist._loadData self data) "key"
    = Ok (PStr (PyStr.replace "/children" "" k))
  /\ loaded_attr (Album._loadData self data) "key"
    = Ok (PStr (PyStr.replace "/children" "" k)).
Proof.
  split; run_loader; unfold attrib_get_d;
    destruct (attrib data !! "key"); cbn [str_replace bind default];
    getattr_simpl; reflexivity.
Qed.

(** C1, as the code has it: for every fragment, whatever its key attribute,
    the Artist loader and the Album loader store that attribute (the empty
    text when the fragment has none) with every occurrence of "/children"
    removed, as [str.replace] does.  Hence when the attribute is
    [p + "/children"] or [p], or is missing and [p] is empty, and "/children"
    does not occur in [p], the stored key of an Artist and of an Album is
    [p], which carries no "/children" suffix. *)
Theorem container_key_children_removed `{Utils}
    (self : PlexObject) (data : Element) :
  loaded_attr (Artist._loadData self data) "key"
    = Ok (PStr (PyStr.replace "/children" "" (default "" (attrib data !! "key"))))
  /\ loaded_attr (Album._loadData self data) "key"
    = Ok (PStr (PyStr.replace "/children" "" (default "" (attrib data !! "key"))))
  /\ (forall p : string,
        PyStr.contains "/children" p = false ->
        attrib data !! "key" = Some (p +:+ "/children")
          \/ attrib data !! "key" = Some p
          \/ (attrib data !! "key" = None /\ p = "") ->
        loaded_attr (Artist._loadData self data) "key" = Ok (PStr p)
        /\ loaded_attr (Album._loadData self data) "key" = Ok (PStr p)
        /\ PyStr.endswith "/children" p = false).
Proof.
  destruct (container_key_replace self data) as [Hartist Halbum].
  cbv zeta in Hartist, Halbum.
  split; [exact Hartist|]. split; [exact Halbum|].
  intros p Hp Hk. rewrite Hartist, Halbum.
  assert (PyStr.replace "/children" "" (default "" (attrib data !! "key")) = p) as ->.
  { destruct Hk as [-> | [-> | [-> ->]]]; cbn [default].
    - by apply replace_children_trailing.
    - by apply replace_absent.
    - reflexivity. }
  repeat split. by apply not_contains_not_endswith.
Qed.

Lemma container_key_children_removed_witness :
  loaded_attr (@Artist._loadData Fixture.utils (Fixture.blank ArtistCls) Fixture.jason_mraz) "key"
    = Ok (PStr (PyStr.replace "/children" "" "/library/metadata/1/children"))
  /\ loaded_attr (@Album._loadData Fixture.utils (Fixture.blank AlbumCls) Fixture.we_sing_fragment) "key"
    = Ok (PStr (PyStr.replace "/children" "" "/library/metadata/2/children"))
  /\ PyStr.contains "/children" "/library/metadata/1" = false
  /\ attrib Fixture.jason_mraz !! "key" = Some ("/library/metadata/1" +:+ "/children")
  /\ loaded_attr (@Artist._loadData Fixture.utils (Fixture.blank ArtistCls) Fixture.jason_mraz) "key"
       = Ok (PStr "/library/metadata/1")
  /\ loaded_attr (@Album._loadData Fixture.utils (Fixture.blank AlbumCls) Fixture.jason_mraz) "key"
       = Ok (PStr "/library/metadata/1")
  /\ PyStr.endswith "/children" "/library/metadata/1" = false.
Proof.
  destruct (@container_key_children_removed Fixture.utils (Fixture.blank ArtistCls)
              Fixture.jason_mraz) as (Hartist & _ & Hence).
  destruct (@container_key_children_removed Fixture.utils (Fixture.blank AlbumCls)
              Fixture.we_sing_fragment) as (_ & Halbum & _).
  destruct (@container_key_children_removed Fixture.utils (Fixture.blank AlbumCls)
              Fixture.jason_mraz) as (_ & _ & Hence').
  destruct (Hence "/library/metadata/1") as (Ha & _ & He);
    [reflexivity | left; vm_compute; reflexivity |].
  destruct (Hence' "/library/metadata/1") as (_ & Hb & _);
    [reflexivity | left; vm_compute; reflexivity |].
  split; [exact Hartist|]. split; [exact Halbum|].
  split; [reflexivity|]. split; [vm_compute; reflexivity|].
  exact (conj Ha (conj Hb He)).
Defined.

(** C1 as stated fails: a key attribute that does not end in "/children" is
    not always stored unchanged (["/children/x"] is stored as ["/x"]). *)
Lemma container_key_not_suffix_only :
  ~ (forall (U : Utils) (self : PlexObject) (data : Element) (k : string),
       attrib data !! "key" = Some k ->
       exists k',
         loaded_attr (Artist._loadData self data) "key" = Ok (PStr k')
         /\ PyStr.endswith "/children" k' = false
         /\ (forall p, k = p +:+ "/children" -> k' = p)
         /\ (PyStr.endswith "/children" k = false -> k' = k)).
Proof.
  intros Hclaim.
  destruct (Hclaim Fixture.utils (Fixture.blank ArtistCls)
              {| tag := "Directory"; attrib := {["key" := "/children/x"]} |}
              "/children/x") as (k' & Hk' & _ & _ & Hsame).
  { vm_compute. reflexivity. }
  vm_compute in Hk'. specialize (Hsame eq_refl).
  congruence.
Qed.

Section ReplaceScenarios.
Local Existing Instance Fixture.utils.

(** What the loaders do on keys where "/children" is not only a suffix. *)
Example container_key_inner_occurrence :
  loaded_attr (Artist._loadData (Fixture.blank ArtistCls)
     {| tag := "Directory"; attrib := {["key" := "/children/x"]} |}) "key"
    = Ok (PStr "/x")
  /\ loaded_attr (Album._loadData (Fixture.blank AlbumCls)
     {| tag := "Directory"; attrib := {["key" := "/a/children/b/children"]} |}) "key"
    = Ok (PStr "/a/b")
  /\ loaded_attr (Album._loadData (Fixture.blank AlbumCls)
     {| tag := "Directory"; attrib := {["key" := "/chil/childrendren"]} |}) "key"
    = Ok (PStr "/children").
Proof. repeat split; vm_compute; reflexivity. Qed.

End ReplaceScenarios.

(** ** Track lookup on an artist *)

Lemma is_None_true (v : pyval) : is_None v = true <-> v = PNone.
Proof. destruct v; simpl; split; congruence. Qed.

Lemma is_None_false (v : pyval) : is_None v = false <-> v <> PNone.
Proof. destruct v; simpl; split; congruence. Qed.

(** C2, as the code has it: [Artist.track(title, album, track)] and its alias
    [Artist.get] raise BadRequest, with no request issued, exactly when
    [title] is None and [album] or [track] is None; a title that is not None
    gives the lookup by title, and no title with both an album and an index
    gives the lookup by album title and index. *)
Theorem artist_track_dispatch `{Utils}
    (self : PlexObject) (k : string) (title album track : pyval) :
  getattr self "key" = Ok (PStr k) ->
  Artist.get self title album track = Artist.track self title album track
  /\ (title <> PNone ->
      Artist.track self title album track
        = Ok (fetchItem (k +:+ "/allLeaves") (Some TrackCls) [("title__iexact", title)]))
  /\ (title = PNone -> album <> PNone -> track <> PNone ->
      Artist.track self title album track
        = Ok (fetchItem (k +:+ "/allLeaves") (Some TrackCls)
                [("parentTitle__iexact", album); ("index", track)]))
  /\ (title = PNone -> album = PNone \/ track = PNone ->
      Artist.track self title album track
        = Raise (BadRequest "Missing argument: title or album and track are required"))
  /\ ((exists msg, Artist.track self title album track = Raise (BadRequest msg))
      <-> title = PNone /\ (album = PNone \/ track = PNone)).
Proof.
  intros Hkey. unfold Artist.get, Artist.track. rewrite Hkey. cbn [bind py_str].
  split; [reflexivity|].
  destruct (is_None title) eqn:Ht, (is_None album) eqn:Ha, (is_None track) eqn:Htr;
    cbn [negb andb];
    repeat match goal with
    | Hn : is_None _ = true |- _ => apply is_None_true in Hn
    | Hn : is_None _ = false |- _ => apply is_None_false in Hn
    end;
    repeat split; intros;
    try reflexivity; try congruence; try tauto;
    try (match goal with He : exists _, _ |- _ => destruct He; discriminate end);
    try (eexists; reflexivity).
Qed.

Section ArtistTrackScenarios.
Local Existing Instance Fixture.utils.

Lemma artist_track_dispatch_witness :
  getattr (Fixture.object ArtistCls [("key", PStr "/library/metadata/1")]) "key"
    = Ok (PStr "/library/metadata/1")
  /\ Artist.track (Fixture.object ArtistCls [("key", PStr "/library/metadata/1")])
       (PStr "Lucky") PNone PNone
     = Ok (fetchItem "/library/metadata/1/allLeaves" (Some TrackCls)
             [("title__iexact", PStr "Lucky")])
  /\ Artist.track (Fixture.object ArtistCls [("key", PStr "/library/metadata/1")])
       PNone (PStr "We Sing") (PInt 3)
     = Ok (fetchItem "/library/metadata/1/allLeaves" (Some TrackCls)
             [("parentTitle__iexact", PStr "We Sing"); ("index", PInt 3)])
  /\ Artist.track (Fixture.object ArtistCls [("key", PStr "/library/metadata/1")])
       PNone PNone PNone
     = Raise (BadRequest "Missing argument: title or album and track are required").
Proof.
  split; [vm_compute; reflexivity|].
  pose (self := Fixture.object ArtistCls [("key", PStr "/library/metadata/1")]).
  assert (getattr self "key" = Ok (PStr "/library/metadata/1")) as Hkey
    by (vm_compute; reflexivity).
  split; [|split].
  - destruct (artist_track_dispatch self "/library/metadata/1" (PStr "Lucky") PNone PNone Hkey)
      as (_ & Ht & _).
    apply Ht. discriminate.
  - destruct (artist_track_dispatch self "/library/metadata/1" PNone (PStr "We Sing") (PInt 3) Hkey)
      as (_ & _ & Ha & _).
    apply Ha; [reflexivity | discriminate | discriminate].
  - destruct (artist_track_dispatch self "/library/metadata/1" PNone PNone PNone Hkey)
      as (_ & _ & _ & Hr & _).
    apply Hr; [reflexivity | left; reflexivity].
Defined.

(** C2 as stated fails: an index supplied without an album title is not
    looked up; the call raises BadRequest. *)
Lemma artist_track_index_without_album :
  Artist.track (Fixture.object ArtistCls [("key", PStr "/library/metadata/1")])
    PNone PNone (PInt 3)
  = Raise (BadRequest "Missing argument: title or album and track are required")
  /\ ~ (exists r, Artist.track (Fixture.object ArtistCls [("key", PStr "/library/metadata/1")])
                    PNone PNone (PInt 3) = Ok r).
Proof.
  split; [vm_compute; reflexivity|].
  intros [r Hr]. vm_compute in Hr. discriminate.
Qed.

End ArtistTrackScenarios.

(** ** Track lookup on an album *)

(** C9: [Album.track(title, track)] looks at the runtime type of [title].  An
    integer title is the positional index: the lookup filters by that index
    and by a case-insensitive match of the album's own title.  A title that
    is neither None nor an integer is matched as a title.  BadRequest is
    raised if and only if [title] and [track] are both None, so never for an
    integer title. *)
Theorem album_track_dispatch `{Utils}
    (self : PlexObject) (k : string) (own_title title track : pyval) :
  getattr self "key" = Ok (PStr k) ->
  getattr self "title" = Ok own_title ->
  Album.get self title track = Album.track self title track
  /\ (isinstance_int title = true ->
      Album.track self title track
        = Ok (fetchItem (k +:+ "/children") (Some TrackCls)
                [("parentTitle__iexact", own_title); ("index", title)]))
  /\ (title <> PNone -> isinstance_int title = false ->
      Album.track self title track
        = Ok (fetchItem (k +:+ "/children") (Some TrackCls) [("title__iexact", title)]))
  /\ (title = PNone -> track <> PNone ->
      Album.track self title track
        = Ok (fetchItem (k +:+ "/children") (Some TrackCls)
                [("parentTitle__iexact", own_title); ("index", track)]))
  /\ ((exists msg, Album.track self title track = Raise (BadRequest msg))
      <-> title = PNone /\ track = PNone).
Proof.
  intros Hkey Htitle. unfold Album.get, Album.track.
  rewrite Hkey. cbn [bind py_str]. rewrite Htitle.
  split; [reflexivity|].
  destruct (is_None track) eqn:Htr;
    [apply is_None_true in Htr | apply is_None_false in Htr];
    destruct title; cbn [is_None isinstance_int negb andb orb bind];
    repeat split; intros;
    try reflexivity; try congruence; try tauto;
    try (match goal with He : exists _, _ |- _ => destruct He; discriminate end);
    try (match goal with Hc : _ /\ _ |- _ => destruct Hc; congruence end);
    try (eexists; reflexivity).
Qed.

Section AlbumTrackScenarios.
Local Existing Instance Fixture.utils.

Lemma album_track_dispatch_witness :
  getattr Fixture.we_sing "key" = Ok (PStr "/library/metadata/2")
  /\ getattr Fixture.we_sing "title" = Ok (PStr "We Sing")
  /\ Album.track Fixture.we_sing (PInt 3) PNone
     = Ok (fetchItem "/library/metadata/2/children" (Some TrackCls)
             [("parentTitle__iexact", PStr "We Sing"); ("index", PInt 3)])
  /\ Album.track Fixture.we_sing (PInt 3) (PInt 7)
     = Ok (fetchItem "/library/metadata/2/children" (Some TrackCls)
             [("parentTitle__iexact", PStr "We Sing"); ("index", PInt 3)])
  /\ Album.track Fixture.we_sing (PStr "Lucky") PNone
     = Ok (fetchItem "/library/metadata/2/children" (Some TrackCls)
             [("title__iexact", PStr "Lucky")]).
Proof.
  assert (getattr Fixture.we_sing "key" = Ok (PStr "/library/metadata/2")) as Hkey
    by (vm_compute; reflexivity).
  assert (getattr Fixture.we_sing "title" = Ok (PStr "We Sing")) as Htitle
    by (vm_compute; reflexivity).
  split; [exact Hkey|]. split; [exact Htitle|].
  split; [|split].
  - destruct (album_track_dispatch Fixture.we_sing _ _ (PInt 3) PNone Hkey Htitle) as (_ & Hi & _).
    apply Hi. reflexivity.
  - destruct (album_track_dispatch Fixture.we_sing _ _ (PInt 3) (PInt 7) Hkey Htitle) as (_ & Hi & _).
    apply Hi. reflexivity.
  - destruct (album_track_dispatch Fixture.we_sing _ _ (PStr "Lucky") PNone Hkey Htitle)
      as (_ & _ & Hs & _).
    apply Hs; [discriminate | reflexivity].
Defined.

End AlbumTrackScenarios.

(** ** The similarity query *)

Lemma append_assoc (a b c : string) : (a +:+ b) +:+ c = a +:+ (b +:+ c).
Proof.
  induction a as [|x a IH]; [reflexivity|].
  change (String x ((a +:+ b) +:+ c) = String x (a +:+ (b +:+ c))).
  by rewrite IH.
Qed.

Lemma append_empty_r (a : string) : a +:+ "" = a.
Proof.
  induction a as [|x a IH]; [reflexivity|].
  change (String x (a +:+ "") = String x a).
  by rewrite IH.
Qed.

(** C5: [sonicallySimilar(limit, maxDistance)] fetches, with the class of
    [self], from [<key>/nearest] followed by the query string; [limit] and
    [maxDistance] are each present only when supplied, [limit] first.  With
    both omitted nothing is appended, and [limit=50, maxDistance=0.25] gives
    [?limit=50&maxDistance=0.25] (the float printed as Python prints it). *)
Theorem sonicallySimilar_query `{Utils}
    (self : PlexObject) (k : string) (limit maxDistance : pyval)
    (kwargs : list (string * pyval)) :
  getattr self "key" = Ok (PStr k) ->
  (limit = PNone -> maxDistance = PNone ->
   Audio.sonicallySimilar self limit maxDistance kwargs
     = Ok (fetchItems (k +:+ "/nearest") (Some (cls self)) kwargs))
  /\ (limit <> PNone -> maxDistance = PNone ->
   Audio.sonicallySimilar self limit maxDistance kwargs
     = Ok (fetchItems (k +:+ "/nearest" +:+ "?limit=" +:+ py_str limit)
             (Some (cls self)) kwargs))
  /\ (limit = PNone -> maxDistance <> PNone ->
   Audio.sonicallySimilar self limit maxDistance kwargs
     = Ok (fetchItems (k +:+ "/nearest" +:+ "?maxDistance=" +:+ py_str maxDistance)
             (Some (cls self)) kwargs))
  /\ (limit <> PNone -> maxDistance <> PNone ->
   Audio.sonicallySimilar self limit maxDistance kwargs
     = Ok (fetchItems (k +:+ "/nearest" +:+ "?limit=" +:+ py_str limit
                         +:+ "&maxDistance=" +:+ py_str maxDistance)
             (Some (cls self)) kwargs))
  /\ (repr (PFloat 0.25) = "0.25" ->
   Audio.sonicallySimilar self (PInt 50) (PFloat 0.25) kwargs
     = Ok (fetchItems (k +:+ "/nearest?limit=50&maxDistance=0.25")
             (Some (cls self)) kwargs)).
Proof.
  intros Hkey. unfold Audio.sonicallySimilar. rewrite Hkey.
  cbn [bind]. cbv zeta. change (py_str (PStr k)) with k.
  repeat split.
  - intros -> ->. cbn [is_None utils.joinArgs].
    by rewrite append_empty_r.
  - intros Hl%is_None_false ->. rewrite Hl. cbn [is_None dict_set utils.joinArgs].
    cbn [List.map PyStr.join fst snd].
    rewrite !append_assoc. reflexivity.
  - intros -> Hm%is_None_false. rewrite Hm. cbn [is_None dict_set utils.joinArgs].
    cbn [List.map PyStr.join fst snd].
    rewrite !append_assoc. reflexivity.
  - intros Hl%is_None_false Hm%is_None_false. rewrite Hl, Hm.
    cbn [dict_set String.eqb Ascii.eqb Bool.eqb andb utils.joinArgs].
    cbn [List.map PyStr.join fst snd].
    rewrite !append_assoc. reflexivity.
  - intros Hrepr. cbn [is_None dict_set String.eqb Ascii.eqb Bool.eqb andb utils.joinArgs].
    cbn [List.map PyStr.join fst snd py_str]. rewrite Hrepr.
    change (PyStr.of_int 50) with "50".
    rewrite !append_assoc. reflexivity.
Qed.

Section SimilarScenarios.
Local Existing Instance Fixture.utils.

Lemma sonicallySimilar_query_witness :
  getattr (Fixture.object TrackCls [("key", PStr "/library/metadata/5")]) "key"
    = Ok (PStr "/library/metadata/5")
  /\ repr (PFloat 0.25) = "0.25"
  /\ Audio.sonicallySimilar (Fixture.object TrackCls [("key", PStr "/library/metadata/5")])
       (PInt 50) (PFloat 0.25) []
     = Ok (fetchItems "/library/metadata/5/nearest?limit=50&maxDistance=0.25"
             (Some TrackCls) [])
  /\ Audio.sonicallySimilar (Fixture.object TrackCls [("key", PStr "/library/metadata/5")])
       PNone PNone []
     = Ok (fetchItems "/library/metadata/5/nearest" (Some TrackCls) [])
  /\ Audio.sonicallySimilar (Fixture.object TrackCls [("key", PStr "/library/metadata/5")])
       PNone (PFloat 0.25) []
     = Ok (fetchItems "/library/metadata/5/nearest?maxDistance=0.25" (Some TrackCls) []).
Proof.
  pose (self := Fixture.object TrackCls [("key", PStr "/library/metadata/5")]).
  assert (getattr self "key" = Ok (PStr "/library/metadata/5")) as Hkey
    by (vm_compute; reflexivity).
  assert (repr (PFloat 0.25) = "0.25") as Hrepr by (vm_compute; reflexivity).
  split; [exact Hkey|]. split; [exact Hrepr|].
  split; [|split].
  - destruct (sonicallySimilar_query self _ (PInt 50) (PFloat 0.25) [] Hkey)
      as (_ & _ & _ & _ & He).
    exact (He Hrepr).
  - destruct (sonicallySimilar_query self _ PNone PNone [] Hkey) as (Hn & _).
    exact (Hn eq_refl eq_refl).
  - destruct (sonicallySimilar_query self _ PNone (PFloat 0.25) [] Hkey)
      as (_ & _ & Hm & _).
    assert (PFloat 0.25 <> PNone) as Hne by discriminate.
    pose proof (Hm eq_refl Hne) as Hq.
    cbn [py_str] in Hq. rewrite Hrepr in Hq. exact Hq.
Defined.

End SimilarScenarios.

(** ** Popular tracks *)

(** C6: [popularTracks()] is one search of the owning section, scoped to
    tracks, whose filters exclude the album subformats Compilation and Live,
    select this artist's ratingKey, group by title and require a ratingCount
    above 0; it sorts by ratingCount descending and is limited to 100. *)
Theorem popularTracks_search (self : PlexObject) (ratingKey : pyval) :
  getattr self "ratingKey" = Ok ratingKey ->
  Artist.popularTracks self
  = Ok (section_search "track"
          [ ("album.subformat!", PStr "Compilation,Live");
            ("artist.id", ratingKey);
            ("group", PStr "title");
            ("ratingCount>>", PInt 0) ]
          "ratingCount:desc" 100).
Proof. intros Hrk. unfold Artist.popularTracks. by rewrite Hrk. Qed.

Section PopularScenarios.
Local Existing Instance Fixture.utils.

Lemma popularTracks_search_witness :
  loaded_attr (Artist._loadData (Fixture.blank ArtistCls) Fixture.jason_mraz) "ratingKey"
    = Ok (PInt 1)
  /\ (self <- Artist._loadData (Fixture.blank ArtistCls) Fixture.jason_mraz ;;
      Artist.popularTracks self)
     = Ok (section_search "track"
             [ ("album.subformat!", PStr "Compilation,Live");
               ("artist.id", PInt 1);
               ("group", PStr "title");
               ("ratingCount>>", PInt 0) ]
             "ratingCount:desc" 100).
Proof.
  split; [vm_compute; reflexivity|].
  destruct (Artist._loadData (Fixture.blank ArtistCls) Fixture.jason_mraz)
    as [self|e] eqn:Hload; [|vm_compute in Hload; discriminate].
  cbn [bind]. apply (popularTracks_search self (PInt 1)).
  assert (loaded_attr (Artist._loadData (Fixture.blank ArtistCls) Fixture.jason_mraz)
            "ratingKey" = Ok (PInt 1)) as Hrk by (vm_compute; reflexivity).
  rewrite Hload in Hrk. exact Hrk.
Defined.

End PopularScenarios.

(** ** Defaults of the loaders *)

(** C7: after any of the loaders, [titleSort] is the fragment's titleSort
    attribute when it has one and otherwise the title, and [title] is the
    fragment's title; so [titleSort] is present whenever the title is.  The
    loaders of the mix-ins are assumed to leave these two attributes alone. *)
Theorem titleSort_defaults_to_title `{Utils} `{Base}
    (self : PlexObject) (data : Element) :
  (forall o d n, n = "title" \/ n = "titleSort" ->
     getattr (Playable_loadData o d) n = getattr o n) ->
  (forall o d n, n = "title" \/ n = "titleSort" ->
     getattr (PlexSession_loadData o d) n = getattr o n) ->
  (forall o d n, n = "title" \/ n = "titleSort" ->
     getattr (PlexHistory_loadData o d) n = getattr o n) ->
  Forall (fun load : PlexObject -> Element -> result PlexObject =>
            loaded_attr (load self data) "title" = Ok (attrib_get data "title")
            /\ loaded_attr (load self data) "titleSort"
               = Ok (match attrib data !! "titleSort" with
                     | Some s => PStr s
                     | None => attrib_get data "title"
                     end)
            /\ (forall t, attrib data !! "title" = Some t ->
                exists s, loaded_attr (load self data) "titleSort" = Ok (PStr s)))
    [ Audio._loadData; Artist._loadData; Album._loadData;
      Track._loadData; TrackSession._loadData; TrackHistory._loadData ].
Proof.
  intros HP HS HH.
  assert (forall r : result PlexObject,
            loaded_attr r "titleSort"
              = Ok (attrib_get_d data "titleSort" (attrib_get data "title")) ->
            loaded_attr r "titleSort"
              = Ok (match attrib data !! "titleSort" with
                    | Some s => PStr s
                    | None => attrib_get data "title"
                    end)
            /\ (forall t, attrib data !! "title" = Some t ->
                exists s, loaded_attr r "titleSort" = Ok (PStr s))) as Hshape.
  { intros r ->. unfold attrib_get_d, attrib_get. split; [reflexivity|].
    intros t ->. destruct (attrib data !! "titleSort"); eauto. }
  repeat match goal with
         | |- Forall _ (_ :: _) => constructor
         | |- Forall _ [] => constructor
         end; cbv beta;
    (split; [|apply Hshape]); run_loader;
    rewrite ?HS, ?HH by auto; getattr_simpl;
    rewrite ?HP by auto; getattr_simpl;
    try reflexivity;
    unfold attrib_get_d; destruct (attrib data !! "key");
    cbn [str_replace bind]; getattr_simpl; reflexivity.
Qed.

Lemma fixture_frame :
  (forall o d n, n = "title" \/ n = "titleSort" ->
     getattr (@Playable_loadData Fixture.base o d) n = getattr o n)
  /\ (forall o d n, n = "title" \/ n = "titleSort" ->
     getattr (@PlexSession_loadData Fixture.base o d) n = getattr o n)
  /\ (forall o d n, n = "title" \/ n = "titleSort" ->
     getattr (@PlexHistory_loadData Fixture.base o d) n = getattr o n).
Proof.
  repeat split; intros o d n [-> | ->]; cbn; getattr_simpl; reflexivity.
Defined.

Lemma titleSort_defaults_to_title_witness :
  Forall (fun load : PlexObject -> Element -> result PlexObject =>
            loaded_attr (load (Fixture.blank TrackCls) Fixture.jason_mraz) "title"
              = Ok (attrib_get Fixture.jason_mraz "title")
            /\ loaded_attr (load (Fixture.blank TrackCls) Fixture.jason_mraz) "titleSort"
               = Ok (match attrib Fixture.jason_mraz !! "titleSort" with
                     | Some s => PStr s
                     | None => attrib_get Fixture.jason_mraz "title"
                     end)
            /\ (forall t, attrib Fixture.jason_mraz !! "title" = Some t ->
                exists s, loaded_attr (load (Fixture.blank TrackCls) Fixture.jason_mraz)
                            "titleSort" = Ok (PStr s)))
    [ @Audio._loadData Fixture.utils; @Artist._loadData Fixture.utils;
      @Album._loadData Fixture.utils;
      @Track._loadData Fixture.utils Fixture.base;
      @TrackSession._loadData Fixture.utils Fixture.base;
      @TrackHistory._loadData Fixture.utils Fixture.base ].
Proof.
  destruct fixture_frame as (HP & HS & HH).
  exact (@titleSort_defaults_to_title Fixture.utils Fixture.base
           (Fixture.blank TrackCls) Fixture.jason_mraz HP HS HH).
Defined.

(** C10: a fragment without viewCount gives [viewCount = 0] in
    [Audio._loadData], and a fragment without viewOffset gives
    [viewOffset = 0] in [Track._loadData]; the other numeric attributes, such
    as ratingCount, skipCount and duration, are None when the fragment does
    not have them. *)
Theorem missing_counters_default `{Utils} `{Base} (self : PlexObject) (data : Element) :
  (attrib data !! "viewCount" = None ->
   loaded_attr (Audio._loadData self data) "viewCount" = Ok (PInt 0))
  /\ (attrib data !! "viewOffset" = None ->
   loaded_attr (Track._loadData self data) "viewOffset" = Ok (PInt 0))
  /\ (attrib data !! "ratingCount" = None ->
   loaded_attr (Track._loadData self data) "ratingCount" = Ok PNone)
  /\ (attrib data !! "skipCount" = None ->
   loaded_attr (Track._loadData self data) "skipCount" = Ok PNone)
  /\ (attrib data !! "duration" = None ->
   loaded_attr (Track._loadData self data) "duration" = Ok PNone)
  /\ (attrib data !! "index" = None ->
   loaded_attr (Audio._loadData self data) "index" = Ok PNone)
  /\ (attrib data !! "ratingKey" = None ->
   loaded_attr (Audio._loadData self data) "ratingKey" = Ok PNone).
Proof.
  repeat split; intros Hmissing; run_loader;
    unfold attrib_get_d, attrib_get; rewrite Hmissing; reflexivity.
Qed.

Lemma missing_counters_default_witness :
  attrib Fixture.jason_mraz !! "viewCount" = None
  /\ attrib Fixture.jason_mraz !! "viewOffset" = None
  /\ attrib Fixture.jason_mraz !! "ratingCount" = None
  /\ loaded_attr (@Audio._loadData Fixture.utils (Fixture.blank AudioCls) Fixture.jason_mraz)
       "viewCount" = Ok (PInt 0)
  /\ loaded_attr (@Track._loadData Fixture.utils Fixture.base
                    (Fixture.blank TrackCls) Fixture.jason_mraz) "viewOffset" = Ok (PInt 0)
  /\ loaded_attr (@Track._loadData Fixture.utils Fixture.base
                    (Fixture.blank TrackCls) Fixture.jason_mraz) "ratingCount" = Ok PNone.
Proof.
  assert (attrib Fixture.jason_mraz !! "viewCount" = None) as Hvc by (vm_compute; reflexivity).
  assert (attrib Fixture.jason_mraz !! "viewOffset" = None) as Hvo by (vm_compute; reflexivity).
  assert (attrib Fixture.jason_mraz !! "ratingCount" = None) as Hrc by (vm_compute; reflexivity).
  destruct (@missing_counters_default Fixture.utils Fixture.base
              (Fixture.blank AudioCls) Fixture.jason_mraz) as (Ha & _).
  destruct (@missing_counters_default Fixture.utils Fixture.base
              (Fixture.blank TrackCls) Fixture.jason_mraz) as (_ & Hb & Hc & _).
  exact (conj Hvc (conj Hvo (conj Hrc (conj (Ha Hvc) (conj (Hb Hvo) (Hc Hrc)))))).
Defined.

(** ** The order of the loaders *)

Lemma getattr_assign_all (l : list (string * pyval)) (self : PlexObject) (name : string) :
  getattr (assign_all self l) name
  = match last_assigned name l with
    | Some w => Ok w
    | None => getattr self name
    end.
Proof.
  revert self. induction l as [|[k v] l IH]; intros self; [reflexivity|].
  change (assign_all self ((k, v) :: l)) with (assign_all (setattr self k v) l).
  rewrite IH. cbn [last_assigned].
  destruct (last_assigned name l); [reflexivity|].
  rewrite getattr_setattr. by destruct (String.eqb k name).
Qed.

Lemma Audio_loadData_total `{Utils} (self : PlexObject) (data : Element) :
  exists audio, Audio._loadData self data = Ok audio.
Proof.
  unfold Audio._loadData. cbv zeta. getattr_simpl. eexists. reflexivity.
Qed.

(** C8: the loaders are layered, each writing over what ran before it.
    [Track._loadData] runs the Audio loader, then the Playable loader on its
    result, then its own assignments; [TrackSession._loadData] and
    [TrackHistory._loadData] run the Track loader and then the session,
    resp. history, loader on its result.  So an attribute of a loaded Track
    is the Track's own assignment when there is one, and otherwise what the
    Playable loader left on top of the Audio loader; and every loader
    returns. *)
Theorem loaders_layered `{Utils} `{Base} (self : PlexObject) (data : Element) :
  Track._loadData self data
    = (audio <- Audio._loadData self data ;;
       Ok (assign_all (Playable_loadData audio data) (Track_fields data)))
  /\ TrackSession._loadData self data
    = (track <- Track._loadData self data ;; Ok (PlexSession_loadData track data))
  /\ TrackHistory._loadData self data
    = (track <- Track._loadData self data ;; Ok (PlexHistory_loadData track data))
  /\ (forall name,
      loaded_attr (Track._loadData self data) name
      = (audio <- Audio._loadData self data ;;
         match last_assigned name (Track_fields data) with
         | Some v => Ok v
         | None => getattr (Playable_loadData audio data) name
         end))
  /\ (forall name,
      loaded_attr (TrackSession._loadData self data) name
      = (track <- Track._loadData self data ;;
         getattr (PlexSession_loadData track data) name))
  /\ (forall name,
      loaded_attr (TrackHistory._loadData self data) name
      = (track <- Track._loadData self data ;;
         getattr (PlexHistory_loadData track data) name))
  /\ (exists track, Track._loadData self data = Ok track)
  /\ (exists session, TrackSession._loadData self data = Ok session)
  /\ (exists history, TrackHistory._loadData self data = Ok history).
Proof.
  assert (Track._loadData self data
          = (audio <- Audio._loadData self data ;;
             Ok (assign_all (Playable_loadData audio data) (Track_fields data)))) as Htrack
    by reflexivity.
  destruct (Audio_loadData_total self data) as [audio Haudio].
  assert (Track._loadData self data
          = Ok (assign_all (Playable_loadData audio data) (Track_fields data))) as Htrack'
    by (rewrite Htrack, Haudio; reflexivity).
  split; [exact Htrack|].
  split; [reflexivity|]. split; [reflexivity|].
  split; [|split; [|split; [|split; [|split]]]].
  - intros name. unfold loaded_attr. rewrite Htrack', Haudio. cbn [bind].
    apply getattr_assign_all.
  - intros name. unfold loaded_attr, TrackSession._loadData.
    rewrite Htrack'. reflexivity.
  - intros name. unfold loaded_attr, TrackHistory._loadData.
    rewrite Htrack'. reflexivity.
  - eexists. exact Htrack'.
  - unfold TrackSession._loadData. rewrite Htrack'. eexists. reflexivity.
  - unfold TrackHistory._loadData. rewrite Htrack'. eexists. reflexivity.
Qed.

(** With a Playable loader that writes [title] and [viewOffset]: the title
    is Playable's (written over Audio's), the view offset is Track's (written
    over Playable's), and a session loader writes over both. *)
Example loaders_overwrite_in_order :
  loaded_attr (@Track._loadData Fixture.utils Fixture.overwriting_base
                 (Fixture.blank TrackCls) Fixture.jason_mraz) "title"
    = Ok (PStr "written by Playable")
  /\ loaded_attr (@Track._loadData Fixture.utils Fixture.overwriting_base
                 (Fixture.blank TrackCls) Fixture.jason_mraz) "viewOffset"
    = Ok (PInt 0)
  /\ loaded_attr (@TrackSession._loadData Fixture.utils Fixture.overwriting_base
                 (Fixture.blank TrackSessionCls) Fixture.jason_mraz) "viewOffset"
    = Ok (PInt 7)
  /\ loaded_attr (@TrackHistory._loadData Fixture.utils Fixture.overwriting_base
                 (Fixture.blank TrackHistoryCls) Fixture.jason_mraz) "viewOffset"
    = Ok (PInt 0).
Proof. repeat split; vm_compute; reflexivity. Qed.

(** ** The metadata directory *)

Lemma length_append (a b : string) :
  String.length (a +:+ b) = String.length a + String.length b.
Proof.
  induction a as [|x a IH]; [reflexivity|].
  change (S (String.length (a +:+ b)) = S (String.length a + String.length b)).
  by rewrite IH.
Qed.

Lemma all_chars_append (P : ascii -> bool) (a b : string) :
  all_chars P (a +:+ b) = all_chars P a && all_chars P b.
Proof.
  induction a as [|x a IH]; [reflexivity|].
  change (P x && all_chars P (a +:+ b) = P x && all_chars P a && all_chars P b).
  rewrite IH. by rewrite andb_assoc.
Qed.

Lemma all_chars_not_mem (P : ascii -> bool) (c : ascii) (s : string) :
  P c = false -> all_chars P s = true -> PyStr.mem c s = false.
Proof.
  intros Hc. induction s as [|b s IH]; simpl; [reflexivity|].
  intros [Hb Hs]%andb_true_iff. rewrite (IH Hs), orb_false_r.
  destruct (Ascii.eqb_spec c b) as [->|]; [congruence | reflexivity].
Qed.

Lemma all_chars_weaken (P Q : ascii -> bool) (s : string) :
  (forall c, P c = true -> Q c = true) ->
  all_chars P s = true -> all_chars Q s = true.
Proof.
  intros HPQ. induction s as [|c s IH]; [reflexivity|].
  cbn [all_chars]. intros [Hc Hs]%andb_true_iff.
  by rewrite (HPQ c Hc), (IH Hs).
Qed.

Lemma hexchar_hexdigit (x : Z) : is_hexdigit (Hashlib.hexchar x) = true.
Proof.
  unfold Hashlib.hexchar.
  assert (0 <= x mod 16 < 16)%Z as Hr by (apply Z.mod_pos_bound; lia).
  assert (Z.to_nat (x mod 16) < 16) as Hn by lia.
  destruct (Z.to_nat (x mod 16)) as [|n]; [reflexivity|].
  do 15 (destruct n as [|n]; [reflexivity|]). lia.
Qed.

Lemma hex_hexdigits (n : nat) (x : Z) :
  all_chars is_hexdigit (Hashlib.hex n x) = true /\ String.length (Hashlib.hex n x) = n.
Proof.
  induction n as [|n [IHa IHl]]; [split; reflexivity|].
  cbn [Hashlib.hex all_chars String.length].
  rewrite hexchar_hexdigit, IHa, IHl. split; reflexivity.
Qed.

(** A SHA-1 hex digest is 40 hexadecimal digits. *)
Lemma hexdigest_shape (d : Hashlib.digest) :
  all_chars is_hexdigit (Hashlib.hexdigest d) = true
  /\ String.length (Hashlib.hexdigest d) = 40.
Proof.
  unfold Hashlib.hexdigest.
  rewrite !all_chars_append, !length_append.
  destruct (hex_hexdigits 8 (Hashlib.h0 d)) as [-> ->].
  destruct (hex_hexdigits 8 (Hashlib.h1 d)) as [-> ->].
  destruct (hex_hexdigits 8 (Hashlib.h2 d)) as [-> ->].
  destruct (hex_hexdigits 8 (Hashlib.h3 d)) as [-> ->].
  destruct (hex_hexdigits 8 (Hashlib.h4 d)) as [-> ->].
  split; reflexivity.
Qed.

Lemma split_no_separator (sep : ascii) (s : string) :
  PyStr.mem sep s = false -> PyStr.split sep s = [s].
Proof.
  induction s as [|c s IH]; [reflexivity|].
  cbn [PyStr.mem PyStr.split]. intros [Hc Hs]%orb_false_iff.
  rewrite Ascii.eqb_sym in Hc. rewrite Hc, (IH Hs). reflexivity.
Qed.

(** A segment without separator that is neither empty nor ["."] is one
    relative component. *)
Lemma Path_component (s : string) :
  PyStr.mem "/" s = false -> pathlib.is_component s = true ->
  pathlib.Path s = {| pathlib.root := ""; pathlib.parts := [s] |}.
Proof.
  intros Hm Hc. unfold pathlib.Path.
  rewrite (split_no_separator _ _ Hm). cbn [List.filter]. rewrite Hc.
  f_equal. destruct s as [|c s]; [reflexivity|].
  cbn [PyStr.mem] in Hm. apply orb_false_iff in Hm as [Hc' _].
  unfold pathlib.root_of. cbn [PyStr.startswith]. rewrite Hc'. reflexivity.
Qed.

Lemma metadata_path (kind first rest : string) :
  PyStr.mem "/" kind = false -> pathlib.is_component kind = true ->
  PyStr.mem "/" first = false -> pathlib.is_component first = true ->
  PyStr.mem "/" rest = false -> pathlib.is_component rest = true ->
  pathlib.str (pathlib.Path "Metadata" // kind // first // rest)
  = "Metadata/" +:+ kind +:+ "/" +:+ first +:+ "/" +:+ rest.
Proof.
  intros Hk1 Hk2 Hf1 Hf2 Hr1 Hr2.
  unfold pathlib.truediv.
  rewrite (Path_component kind), (Path_component first), (Path_component rest) by done.
  reflexivity.
Qed.

Lemma substring_none (s : string) : String.substring 0 0 s = "".
Proof. destruct s; reflexivity. Qed.

Lemma substring_all (s : string) : String.substring 0 (String.length s) s = s.
Proof. induction s as [|c s IH]; simpl; congruence. Qed.

Lemma hexdigit_component (c : ascii) :
  is_hexdigit c = true ->
  PyStr.mem "/" (String c "") = false /\ pathlib.is_component (String c "") = true.
Proof.
  intros Hc. split.
  - apply (all_chars_not_mem is_hexdigit); [reflexivity|].
    simpl. by rewrite Hc.
  - unfold pathlib.is_component. cbn [String.eqb].
    destruct (Ascii.eqb_spec c ".") as [->|]; [discriminate Hc | reflexivity].
Qed.

Lemma bundle_component (t : string) :
  all_chars is_hexdigit t = true ->
  PyStr.mem "/" (t +:+ ".bundle") = false
  /\ pathlib.is_component (t +:+ ".bundle") = true.
Proof.
  intros Ht. split.
  - apply (all_chars_not_mem (fun c => is_hexdigit c || PyStr.mem c ".bundle"));
      [reflexivity|].
    rewrite all_chars_append. apply andb_true_iff. split; [|reflexivity].
    apply (all_chars_weaken is_hexdigit); [|exact Ht].
    intros c ->. reflexivity.
  - unfold pathlib.is_component.
    assert (7 <= String.length (t +:+ ".bundle")) as Hlen
      by (rewrite length_append; simpl; lia).
    destruct (String.eqb_spec (t +:+ ".bundle") "") as [He|_];
      [rewrite He in Hlen; simpl in Hlen; lia|].
    destruct (String.eqb_spec (t +:+ ".bundle") ".") as [He|_];
      [rewrite He in Hlen; simpl in Hlen; lia|].
    reflexivity.
Qed.

(** What the three [metadataDirectory] properties do with a digest. *)
Lemma bundle_of_digest (kind : string) (d : Hashlib.digest) :
  PyStr.mem "/" kind = false -> pathlib.is_component kind = true ->
  (first <- str_first (Hashlib.hexdigest d) ;;
   Ok (pathlib.str (pathlib.Path "Metadata" // kind // first
                    // (str_rest (Hashlib.hexdigest d) +:+ ".bundle"))))
  = Ok (spec_bundle_path kind (Hashlib.hexdigest d)).
Proof.
  intros Hk1 Hk2.
  destruct (hexdigest_shape d) as [Hall Hlen].
  destruct (Hashlib.hexdigest d) as [|c t]; [discriminate Hlen|].
  cbn [all_chars] in Hall. apply andb_true_iff in Hall as [Hc Ht].
  destruct (hexdigit_component c Hc) as [Hf1 Hf2].
  destruct (bundle_component t Ht) as [Hr1 Hr2].
  cbn [str_first str_rest bind].
  rewrite metadata_path by done.
  unfold spec_bundle_path.
  change (String.substring 0 1 (String c t)) with (String c (String.substring 0 0 t)).
  rewrite substring_none.
  change (String.substring 1 (String.length (String c t) - 1) (String c t))
    with (String.substring 0 (String.length t - 0) t).
  rewrite Nat.sub_0_r, substring_all.
  reflexivity.
Qed.

(** C3: [metadataDirectory] hashes a guid and returns
    [Metadata/<Kind>/<firstHashChar>/<remainingHashChars>.bundle].  For every
    Artist whose guid is text the kind is Artists and the guid hashed is its
    own; for every Album whose guid is text the kind is Albums and the guid
    hashed is its own; for every Track whose parentGuid is text the kind is
    Albums and the guid hashed is the album's ([parentGuid]), whatever the
    Track's own guid.  Each kind of entity is taken on its own: nothing is
    asked of an Artist's or an Album's parentGuid, nor of a Track's guid. *)
Theorem metadataDirectory_bundle :
  (forall (artist : PlexObject) (guid : string),
     getattr artist "guid" = Ok (PStr guid) ->
     exists guid_hash,
       utils.sha1hash (PStr guid) = Ok guid_hash
       /\ String.length guid_hash = 40
       /\ Artist.metadataDirectory artist = Ok (spec_bundle_path "Artists" guid_hash))
  /\ (forall (album : PlexObject) (guid : string),
     getattr album "guid" = Ok (PStr guid) ->
     exists guid_hash,
       utils.sha1hash (PStr guid) = Ok guid_hash
       /\ String.length guid_hash = 40
       /\ Album.metadataDirectory album = Ok (spec_bundle_path "Albums" guid_hash))
  /\ (forall (track : PlexObject) (parentGuid : string),
     getattr track "parentGuid" = Ok (PStr parentGuid) ->
     exists parent_hash,
       utils.sha1hash (PStr parentGuid) = Ok parent_hash
       /\ String.length parent_hash = 40
       /\ Track.metadataDirectory track = Ok (spec_bundle_path "Albums" parent_hash)
       /\ (forall v, Track.metadataDirectory (setattr track "guid" v)
                     = Ok (spec_bundle_path "Albums" parent_hash))).
Proof.
  split; [|split].
  - intros artist guid Hg.
    eexists. split; [reflexivity|]. split; [apply hexdigest_shape|].
    unfold Artist.metadataDirectory. rewrite Hg. cbn [bind utils.sha1hash].
    by apply bundle_of_digest.
  - intros album guid Hg.
    eexists. split; [reflexivity|]. split; [apply hexdigest_shape|].
    unfold Album.metadataDirectory. rewrite Hg. cbn [bind utils.sha1hash].
    by apply bundle_of_digest.
  - intros track parentGuid Hp.
    eexists. split; [reflexivity|]. split; [apply hexdigest_shape|].
    unfold Track.metadataDirectory. rewrite Hp. cbn [bind utils.sha1hash].
    split; [by apply bundle_of_digest|].
    intros v. rewrite getattr_setattr. cbn [String.eqb Ascii.eqb Bool.eqb andb].
    rewrite Hp. cbn [bind utils.sha1hash]. by apply bundle_of_digest.
Qed.

(** The three entities of the witness are the objects the three loaders make
    of their fragments; the loaded artist has no parentGuid attribute at all,
    and the loaded album's is None. *)
Lemma metadataDirectory_bundle_witness :
  (@Artist._loadData Fixture.utils (Fixture.blank ArtistCls) Fixture.artist_fragment
     = Ok Fixture.loaded_artist
   /\ getattr Fixture.loaded_artist "guid" = Ok (PStr "plex://artist/5d07bbfc403c6402904a6480")
   /\ dict Fixture.loaded_artist !! "parentGuid" = None
   /\ exists guid_hash,
       utils.sha1hash (PStr "plex://artist/5d07bbfc403c6402904a6480") = Ok guid_hash
       /\ String.length guid_hash = 40
       /\ Artist.metadataDirectory Fixture.loaded_artist
          = Ok (spec_bundle_path "Artists" guid_hash))
  /\ (@Album._loadData Fixture.utils (Fixture.blank AlbumCls) Fixture.we_sing_fragment
     = Ok Fixture.loaded_album
   /\ getattr Fixture.loaded_album "guid" = Ok (PStr "plex://album/5d07cd8e403c640290f180f9")
   /\ getattr Fixture.loaded_album "parentGuid" = Ok PNone
   /\ exists guid_hash,
       utils.sha1hash (PStr "plex://album/5d07cd8e403c640290f180f9") = Ok guid_hash
       /\ String.length guid_hash = 40
       /\ Album.metadataDirectory Fixture.loaded_album
          = Ok (spec_bundle_path "Albums" guid_hash))
  /\ (@Track._loadData Fixture.utils Fixture.base (Fixture.blank TrackCls) Fixture.lucky_fragment
     = Ok Fixture.loaded_track
   /\ getattr Fixture.loaded_track "parentGuid"
      = Ok (PStr "plex://album/5d07cd8e403c640290f180f9")
   /\ exists parent_hash,
       utils.sha1hash (PStr "plex://album/5d07cd8e403c640290f180f9") = Ok parent_hash
       /\ String.length parent_hash = 40
       /\ Track.metadataDirectory Fixture.loaded_track
          = Ok (spec_bundle_path "Albums" parent_hash)
       /\ (forall v, Track.metadataDirectory (setattr Fixture.loaded_track "guid" v)
                     = Ok (spec_bundle_path "Albums" parent_hash))).
Proof.
  destruct metadataDirectory_bundle as (Hartist & Halbum & Htrack).
  assert (getattr Fixture.loaded_artist "guid"
          = Ok (PStr "plex://artist/5d07bbfc403c6402904a6480")) as Hga
    by (vm_compute; reflexivity).
  assert (getattr Fixture.loaded_album "guid"
          = Ok (PStr "plex://album/5d07cd8e403c640290f180f9")) as Hgb
    by (vm_compute; reflexivity).
  assert (getattr Fixture.loaded_track "parentGuid"
          = Ok (PStr "plex://album/5d07cd8e403c640290f180f9")) as Hp
    by (vm_compute; reflexivity).
  split; [|split].
  - split; [vm_compute; reflexivity|]. split; [exact Hga|].
    split; [vm_compute; reflexivity|]. exact (Hartist _ _ Hga).
  - split; [vm_compute; reflexivity|]. split; [exact Hgb|].
    split; [vm_compute; reflexivity|]. exact (Halbum _ _ Hgb).
  - split; [vm_compute; reflexivity|]. split; [exact Hp|].
    exact (Htrack _ _ Hp).
Defined.

(** C4, as the code has it: for a Track whose parentGuid is
    "plex://album/5d07cd8e403c640290f180f9", [metadataDirectory] is
    "Metadata/Albums/7/560a4df7221136983c5fd68f4cebf7a4874cc28.bundle": the
    SHA-1 hex digest of the parentGuid, its first character as the
    one-character subdirectory and the other 39 as the bundle name. *)
Theorem track_metadataDirectory_example (self : PlexObject) :
  getattr self "parentGuid" = Ok (PStr "plex://album/5d07cd8e403c640290f180f9") ->
  utils.sha1hash (PStr "plex://album/5d07cd8e403c640290f180f9")
    = Ok "7560a4df7221136983c5fd68f4cebf7a4874cc28"
  /\ Track.metadataDirectory self
    = Ok "Metadata/Albums/7/560a4df7221136983c5fd68f4cebf7a4874cc28.bundle".
Proof.
  intros Hp. unfold Track.metadataDirectory. rewrite Hp.
  split; vm_compute; reflexivity.
Qed.

Lemma track_metadataDirectory_example_witness :
  getattr Fixture.lucky "parentGuid" = Ok (PStr "plex://album/5d07cd8e403c640290f180f9")
  /\ Track.metadataDirectory Fixture.lucky
     = Ok "Metadata/Albums/7/560a4df7221136983c5fd68f4cebf7a4874cc28.bundle".
Proof.
  assert (getattr Fixture.lucky "parentGuid" = Ok (PStr "plex://album/5d07cd8e403c640290f180f9")) as Hp
    by (vm_compute; reflexivity).
  split; [exact Hp|].
  exact (proj2 (track_metadataDirectory_example Fixture.lucky Hp)).
Defined.

(** C4 as stated fails: the path is built from the digest of the parentGuid,
    not from the identifier inside it. *)
Lemma track_metadataDirectory_not_guid_text :
  Track.metadataDirectory Fixture.lucky
    <> Ok "Metadata/Albums/5/d07cd8e403c640290f180f9.bundle".
Proof. vm_compute. discriminate. Qed.

(** * Further properties: the other methods of the module *)

(** ** Loaders as lists of assignments *)

Lemma Audio_loadData_assigns `{Utils} (self : PlexObject) (data : Element) :
  Audio._loadData self data = Ok (assign_all self (Audio_fields data)).
Proof.
  unfold Audio._loadData. cbv zeta. getattr_simpl. reflexivity.
Qed.

Lemma Artist_loadData_assigns `{Utils} (self : PlexObject) (data : Element) :
  Artist._loadData self data = Ok (assign_all self (Artist_fields data)).
Proof.
  unfold Artist._loadData. rewrite Audio_loadData_assigns. cbn [bind]. cbv zeta.
  unfold Artist_fields, assign_all. rewrite fold_left_app.
  fold (assign_all self (Audio_fields data)).
  set (audio := assign_all self (Audio_fields data)).
  assert (getattr audio "key" = Ok (attrib_get_d data "key" (PStr ""))) as Hkey.
  { unfold audio. rewrite getattr_assign_all. reflexivity. }
  getattr_simpl. rewrite Hkey. unfold attrib_get_d, container_key.
  destruct (attrib data !! "key"); reflexivity.
Qed.

Lemma Album_loadData_assigns `{Utils} (self : PlexObject) (data : Element) :
  Album._loadData self data = Ok (assign_all self (Album_fields data)).
Proof.
  unfold Album._loadData. rewrite Audio_loadData_assigns. cbn [bind]. cbv zeta.
  unfold Album_fields, assign_all. rewrite fold_left_app.
  fold (assign_all self (Audio_fields data)).
  set (audio := assign_all self (Audio_fields data)).
  assert (getattr audio "key" = Ok (attrib_get_d data "key" (PStr ""))) as Hkey.
  { unfold audio. rewrite getattr_assign_all. reflexivity. }
  getattr_simpl. rewrite Hkey. unfold attrib_get_d, container_key.
  destruct (attrib data !! "key"); reflexivity.
Qed.

Lemma cls_assign_all (l : list (string * pyval)) (self : PlexObject) :
  cls (assign_all self l) = cls self.
Proof.
  revert self. induction l as [|[k v] l IH]; intros self; [reflexivity|].
  change (assign_all self ((k, v) :: l)) with (assign_all (setattr self k v) l).
  by rewrite IH.
Qed.

Lemma last_assigned_None (name : string) (l : list (string * pyval)) :
  last_assigned name l = None <-> ~ In name (assigned_names l).
Proof.
  induction l as [|[k v] l IH]; simpl; [tauto|].
  destruct (last_assigned name l) as [w|].
  - split; [discriminate|]. intros Hn. exfalso. apply Hn. right.
    destruct (in_dec string_dec name (assigned_names l)) as [Hin|Hout]; [exact Hin|].
    apply IH in Hout. discriminate.
  - destruct (String.eqb_spec k name) as [->|Hne].
    + split; [discriminate | tauto].
    + split; [|reflexivity]. intros _ [Heq|Hin]; [congruence|].
      by apply IH.
Qed.

(** X2: the footprint of the loaders, for a fragment that has a title (the
    one attribute a loader reads back that can be None, on line 81).  An
    attribute to which the Audio, Artist or Album loader assigns, last, a
    value other than None holds that value after the load, whatever the
    object held before: the value is fixed by the fragment alone.  Every
    attribute the loader does not assign is left as it was.  Nothing is said
    of an attribute that is assigned None: whether None replaces an earlier
    value is decided by [PlexObject.__setattr__], outside this module. *)
Theorem loader_footprint `{Utils} (self : PlexObject) (data : Element)
    (title name : string) :
  attrib data !! "title" = Some title ->
  Forall (fun lf : (PlexObject -> Element -> result PlexObject)
                   * (Element -> list (string * pyval)) =>
            (forall v, last_assigned name (snd lf data) = Some v -> v <> PNone ->
               loaded_attr (fst lf self data) name = Ok v)
            /\ (~ In name (assigned_names (snd lf data)) ->
                loaded_attr (fst lf self data) name = getattr self name))
    [ (Audio._loadData, Audio_fields);
      (Artist._loadData, Artist_fields);
      (Album._loadData, Album_fields) ].
Proof.
  intros _.
  repeat match goal with
         | |- Forall _ (_ :: _) => constructor
         | |- Forall _ [] => constructor
         end; cbv beta; cbn [fst snd]; unfold loaded_attr;
    rewrite ?Audio_loadData_assigns, ?Artist_loadData_assigns, ?Album_loadData_assigns;
    cbn [bind]; rewrite !getattr_assign_all;
    (split;
     [ intros v Hv _; by rewrite Hv
     | intros Hout; apply last_assigned_None in Hout; by rewrite Hout ]).
Qed.

(** ** More on the key of a container *)

Lemma replace_from_length (old : string) (s : string) (k : nat) :
  String.length (PyStr.replace_from old "" k s) <= String.length s.
Proof.
  revert k. induction s as [|c s IH]; intros k; [simpl; lia|].
  cbn [PyStr.replace_from]. destruct k as [|k].
  - destruct (PyStr.startswith old (String c s)).
    + change ("" +:+ ?x) with x. specialize (IH (Nat.pred (String.length old))).
      simpl. lia.
    + specialize (IH 0). simpl. lia.
  - specialize (IH k). simpl. lia.
Qed.

Lemma replace_shortens (old s : string) :
  old <> "" -> PyStr.contains old s = true ->
  String.length (PyStr.replace old "" s) < String.length s.
Proof.
  intros Hold. unfold PyStr.replace.
  induction s as [|c s IH]; intros Hc.
  - destruct old; [congruence | discriminate Hc].
  - cbn [PyStr.contains] in Hc. cbn [PyStr.replace_from].
    destruct (PyStr.startswith old (String c s)) eqn:Hs.
    + change ("" +:+ ?x) with x.
      pose proof (replace_from_length old s (Nat.pred (String.length old))).
      simpl. lia.
    + simpl in Hc. specialize (IH Hc). simpl. lia.
Qed.

(** Removing a non-empty [old] leaves the text as it is exactly when [old]
    does not occur in it. *)
Lemma replace_fixed_iff (old s : string) :
  old <> "" -> (PyStr.replace old "" s = s <-> PyStr.contains old s = false).
Proof.
  intros Hold. split; [|apply replace_absent].
  intros Heq. destruct (PyStr.contains old s) eqn:Hc; [|reflexivity].
  pose proof (replace_shortens old s Hold Hc) as Hlt. rewrite Heq in Hlt. lia.
Qed.

(** X3: a container loader stores the key attribute unchanged exactly when
    "/children" does not occur in it, and the key it stores is never longer
    than the attribute. *)
Theorem container_key_unchanged_iff `{Utils}
    (self : PlexObject) (data : Element) (k : string) :
  attrib data !! "key" = Some k ->
  (loaded_attr (Artist._loadData self data) "key" = Ok (PStr k)
     <-> PyStr.contains "/children" k = false)
  /\ (loaded_attr (Album._loadData self data) "key" = Ok (PStr k)
     <-> PyStr.contains "/children" k = false)
  /\ exists stored,
       loaded_attr (Artist._loadData self data) "key" = Ok (PStr stored)
       /\ loaded_attr (Album._loadData self data) "key" = Ok (PStr stored)
       /\ String.length stored <= String.length k.
Proof.
  intros Hk.
  destruct (container_key_replace self data) as [Ha Hb].
  cbv zeta in Ha, Hb. rewrite Hk in Ha, Hb. cbn [default] in Ha, Hb.
  rewrite Ha, Hb.
  assert (Ok (PStr (PyStr.replace "/children" "" k)) = Ok (PStr k)
          <-> PyStr.contains "/children" k = false) as Hiff.
  { rewrite <- (replace_fixed_iff "/children" k) by discriminate.
    split; [intros [= ->]; reflexivity | intros ->; reflexivity]. }
  split; [exact Hiff|]. split; [exact Hiff|].
  eexists. split; [reflexivity|]. split; [reflexivity|].
  apply replace_from_length.
Qed.



(** ** Dictionaries in insertion order *)

Lemma dict_get_set (d : list (string * pyval)) (k k' : string) (v : pyval) :
  dict_get (dict_set d k v) k' = if String.eqb k k' then Some v else dict_get d k'.
Proof.
  induction d as [|[j w] d IH]; cbn [dict_set dict_get].
  - reflexivity.
  - destruct (String.eqb_spec j k) as [->|Hjk]; cbn [dict_get].
    + destruct (String.eqb_spec k k'); reflexivity.
    + rewrite IH. destruct (String.eqb_spec j k') as [->|Hjk']; [|reflexivity].
      destruct (String.eqb_spec k k'); [congruence | reflexivity].
Qed.

Lemma dict_get_del {V : Type} (d : list (string * V)) (k k' : string) :
  dict_get (dict_del d k) k' = if String.eqb k k' then None else dict_get d k'.
Proof.
  induction d as [|[j w] d IH]; cbn [dict_del dict_get].
  - by destruct (String.eqb k k').
  - destruct (String.eqb_spec j k) as [->|Hjk]; cbn [dict_get].
    + rewrite IH. destruct (String.eqb_spec k k'); reflexivity.
    + rewrite IH. destruct (String.eqb_spec j k') as [->|Hjk']; [|reflexivity].
      destruct (String.eqb_spec k k'); [congruence | reflexivity].
Qed.

Lemma dict_get_pop {V : Type} (d : list (string * V)) (k k' : string) (default : V) :
  dict_get (snd (dict_pop d k default)) k'
  = if String.eqb k k' then None else dict_get d k'.
Proof.
  unfold dict_pop. destruct (dict_get d k) eqn:Hk; cbn [snd].
  - apply dict_get_del.
  - destruct (String.eqb_spec k k') as [<-|]; [exact Hk | reflexivity].
Qed.

(** The names and the order of a dictionary that already has the key are
    kept by an assignment; a new key goes to the end. *)
Lemma dict_set_names (d : list (string * pyval)) (k : string) (v : pyval) :
  List.map fst (dict_set d k v)
  = if dict_has d k then List.map fst d else (List.map fst d ++ [k])%list.
Proof.
  unfold dict_has.
  induction d as [|[j w] d IH]; cbn [dict_set dict_get List.map fst app]; [reflexivity|].
  destruct (String.eqb_spec j k) as [->|Hjk]; cbn [List.map fst]; [reflexivity|].
  rewrite IH. by destruct (dict_get d k).
Qed.

(** X5: the filters of [Artist.albums].  The search is for albums and its
    filters are the caller's with "artist.id" set to the artist's ratingKey:
    a caller's own "artist.id" is overwritten (in place), every other filter
    of the caller is kept, and "filters" is taken out of the keyword
    arguments passed on.  A [TypeError] is raised when "filters" is not a
    dictionary, or when the caller names "libtype". *)
Theorem artist_albums_filters (self : PlexObject) (ratingKey : pyval)
    (kwargs : list (string * kwvalue)) :
  getattr self "ratingKey" = Ok ratingKey ->
  (forall v, dict_get kwargs "filters" = Some (KVal v) ->
     Artist.albums self kwargs = Fail TypeError)
  /\ (forall caller,
       dict_get kwargs "filters" = Some (KDict caller)
         \/ (dict_get kwargs "filters" = None /\ caller = []) ->
       (dict_has kwargs "libtype" = true -> Artist.albums self kwargs = Fail TypeError)
       /\ (dict_has kwargs "libtype" = false ->
           exists filters rest,
             Artist.albums self kwargs = Done (section_search_kw "album" filters rest)
             /\ dict_get filters "artist.id" = Some ratingKey
             /\ (forall k, k <> "artist.id" -> dict_get filters k = dict_get caller k)
             /\ List.map fst filters
                = (if dict_has caller "artist.id" then List.map fst caller
                   else (List.map fst caller ++ ["artist.id"])%list)
             /\ dict_get rest "filters" = None
             /\ (forall k, k <> "filters" -> dict_get rest k = dict_get kwargs k))).
Proof.
  intros Hrk. split.
  - intros v Hv. unfold Artist.albums, dict_pop. rewrite Hv. reflexivity.
  - intros caller Hcaller.
    assert (fst (dict_pop kwargs "filters" (KDict [])) = KDict caller) as Hpop.
    { unfold dict_pop. destruct Hcaller as [-> | [-> ->]]; reflexivity. }
    assert (dict_has (snd (dict_pop kwargs "filters" (KDict []))) "libtype"
            = dict_has kwargs "libtype") as Hlib.
    { unfold dict_has. by rewrite dict_get_pop. }
    unfold Artist.albums.
    destruct (dict_pop kwargs "filters" (KDict [])) as [popped rest] eqn:Hp.
    cbn [fst snd] in Hpop, Hlib. subst popped.
    rewrite Hrk. cbn [lift obind]. rewrite Hlib.
    split; [intros ->; reflexivity|].
    intros ->. exists (dict_set caller "artist.id" ratingKey), rest.
    split; [reflexivity|].
    split; [by rewrite dict_get_set|].
    split.
    { intros k Hk. rewrite dict_get_set.
      destruct (String.eqb_spec "artist.id" k); [congruence | reflexivity]. }
    split; [apply dict_set_names|].
    assert (rest = snd (dict_pop kwargs "filters" (KDict []))) as -> by (by rewrite Hp).
    split; [by rewrite dict_get_pop|].
    intros k Hk. rewrite dict_get_pop.
    destruct (String.eqb_spec "filters" k); [congruence | reflexivity].
Qed.

(** Reads of a literal attribute of a loaded Audio, Artist or Album object. *)
Ltac read_loaded :=
  rewrite ?Audio_loadData_assigns, ?Artist_loadData_assigns, ?Album_loadData_assigns;
  cbn [bind];
  repeat (rewrite getattr_assign_all;
          cbv beta iota zeta delta
            [last_assigned Audio_fields Artist_fields Album_fields app
             String.eqb Ascii.eqb Bool.eqb andb];
          cbn [bind]).

(** X6: [hasSonicAnalysis] of a loaded object.  When the fragment has a
    title and its musicAnalysisVersion converts to the integer [n], the
    property of the object the Audio, Artist or Album loader makes of it is
    [n == 1]. *)
Theorem hasSonicAnalysis_of_loaded `{Utils} (self : PlexObject) (data : Element)
    (title s : string) (n : Z) :
  attrib data !! "title" = Some title ->
  attrib data !! "musicAnalysisVersion" = Some s ->
  coerce int (PStr s) = PInt n ->
  (o <- Audio._loadData self data ;; Audio.hasSonicAnalysis o) = Ok (Z.eqb n 1)
  /\ (o <- Artist._loadData self data ;; Audio.hasSonicAnalysis o) = Ok (Z.eqb n 1)
  /\ (o <- Album._loadData self data ;; Audio.hasSonicAnalysis o) = Ok (Z.eqb n 1).
Proof.
  intros _ Hs Hn. unfold Audio.hasSonicAnalysis. read_loaded.
  unfold attrib_get. rewrite Hs. cbn [utils.cast]. rewrite Hn. repeat split.
Qed.

(** X7: the default sync title of a loaded object, as [sync] finds it through
    [self], for a fragment that has a title.  For an Album whose fragment
    also has a parentTitle it is the text "<parentTitle> - <title>"; for an
    Artist it is the title. *)
Theorem defaultSyncTitle_of_loaded `{Utils} (self : PlexObject) (data : Element)
    (title : string) :
  attrib data !! "title" = Some title ->
  (cls self = AlbumCls ->
   forall parentTitle, attrib data !! "parentTitle" = Some parentTitle ->
   (o <- Album._loadData self data ;; AudioSync._defaultSyncTitle o)
   = Ok (PStr (parentTitle +:+ " - " +:+ title)))
  /\ (cls self = ArtistCls ->
   (o <- Artist._loadData self data ;; AudioSync._defaultSyncTitle o)
   = Ok (PStr title)).
Proof.
  intros Htitle. split.
  - intros Hcls parentTitle Hparent.
    rewrite Album_loadData_assigns. cbn [bind].
    unfold AudioSync._defaultSyncTitle. rewrite cls_assign_all, Hcls.
    unfold Album._defaultSyncTitle. read_loaded.
    unfold attrib_get. rewrite Htitle, Hparent. reflexivity.
  - intros Hcls.
    rewrite Artist_loadData_assigns. cbn [bind].
    unfold AudioSync._defaultSyncTitle. rewrite cls_assign_all, Hcls.
    unfold Audio._defaultSyncTitle. read_loaded.
    unfold attrib_get. rewrite Htitle. reflexivity.
Qed.

(** ** Zero padding *)

Lemma repeat_length (c : ascii) (n : nat) : String.length (PyStr.repeat c n) = n.
Proof. induction n as [|n IH]; simpl; congruence. Qed.

(** [zfill] pads to the width and never cuts. *)
Lemma zfill_length (width : nat) (s : string) :
  String.length (PyStr.zfill width s) = Nat.max width (String.length s).
Proof.
  unfold PyStr.zfill.
  destruct (Nat.leb_spec width (String.length s)) as [Hle|Hlt]; [lia|].
  destruct s as [|c s].
  - rewrite repeat_length. simpl. lia.
  - destruct (Ascii.eqb c "+" || Ascii.eqb c "-").
    + cbn [String.length]. rewrite length_append, repeat_length.
      cbn [String.length] in Hlt |- *. lia.
    + rewrite length_append, repeat_length. lia.
Qed.

Lemma zfill_long (width : nat) (s : string) :
  width <= String.length s -> PyStr.zfill width s = s.
Proof.
  intros Hle. unfold PyStr.zfill.
  destruct (Nat.leb_spec width (String.length s)); [reflexivity | lia].
Qed.

Lemma string_of_uint_nonempty (u : Decimal.uint) :
  1 <= String.length (NilZero.string_of_uint u).
Proof. destruct u; simpl; lia. Qed.

(** The decimal text of an integer outside [0..9] has at least two
    characters. *)
Lemma of_int_length (n : Z) :
  (n < 0 \/ 10 <= n)%Z -> 2 <= String.length (PyStr.of_int n).
Proof.
  intros Hn. unfold PyStr.of_int.
  pose proof (DecimalZ.of_to n) as Hback.
  destruct (Z.to_int n) as [u|u] eqn:Hu.
  - cbn [NilZero.string_of_int].
    destruct u as [|u|u|u|u|u|u|u|u|u|u];
      try (destruct u; simpl; first [lia | (vm_compute in Hback; lia)]).
    vm_compute in Hback. lia.
  - cbn [NilZero.string_of_int String.length].
    pose proof (string_of_uint_nonempty u). lia.
Qed.

Lemma zfill_digit (n : Z) :
  (0 <= n <= 9)%Z -> PyStr.zfill 2 (PyStr.of_int n) = String "0" (PyStr.of_int n).
Proof.
  intros Hn. rewrite <- (Z2Nat.id n) by lia.
  assert (Z.to_nat n < 10) as Hlt by lia.
  destruct (Z.to_nat n) as [|m]; [vm_compute; reflexivity|].
  do 9 (destruct m as [|m]; [vm_compute; reflexivity|]). lia.
Qed.

(** X8: the file name of a track is
    "<grandparentTitle> - <parentTitle> - <number> - <title>", where the
    number is the track number padded with zeros to two characters: "0n" for
    a track number from 0 to 9, the decimal number itself for any other
    integer, and "None" for a track without number.  The number is never
    shorter than two characters and never cut. *)
Theorem prettyfilename_number `{Utils} (self : PlexObject)
    (grandparentTitle parentTitle title index : pyval) :
  getattr self "grandparentTitle" = Ok grandparentTitle ->
  getattr self "parentTitle" = Ok parentTitle ->
  getattr self "title" = Ok title ->
  getattr self "index" = Ok index ->
  exists number,
    Track._prettyfilename self
      = Ok (py_str grandparentTitle +:+ " - " +:+ py_str parentTitle +:+ " - "
            +:+ number +:+ " - " +:+ py_str title)
    /\ String.length number = Nat.max 2 (String.length (py_str index))
    /\ (forall n, index = PInt n -> (0 <= n <= 9)%Z ->
        number = String "0" (PyStr.of_int n))
    /\ (forall n, index = PInt n -> (n < 0 \/ 10 <= n)%Z -> number = PyStr.of_int n)
    /\ (index = PNone -> number = "None").
Proof.
  intros Hg Hp Ht Hi. exists (PyStr.zfill 2 (py_str index)).
  split.
  { unfold Track._prettyfilename, Track.trackNumber.
    rewrite Hg, Hp, Hi, Ht. reflexivity. }
  split; [apply zfill_length|].
  split; [intros n -> Hn; by apply zfill_digit|].
  split.
  - intros n -> Hn. apply zfill_long. by apply of_int_length.
  - intros ->. reflexivity.
Qed.

(** ** Downloads *)

Section DownloadFacts.
Context `{Utils} `{Downloads}.

(** A run of the loop of [Artist.download] in which every download
    succeeds. *)
Lemma artist_download_loop_ok (files : PlexObject -> list string)
    (dir : PlexObject -> pyval)
    (savepath keep_original_name subfolders : pyval) (kwargs : list (string * pyval))
    (todo : list PlexObject) (filepaths : list string) :
  (forall track, In track todo ->
     (if truth subfolders
      then parentTitle <~ lift (getattr track "parentTitle") ;;
           Artist.join_savepath savepath parentTitle
      else Done savepath) = Done (dir track)
     /\ Playable_download track (dir track) keep_original_name kwargs = Done (files track)) ->
  Artist.download_loop todo filepaths savepath keep_original_name subfolders kwargs
  = Done (filepaths ++ List.concat (List.map files todo))%list.
Proof.
  revert filepaths. induction todo as [|track todo IH]; intros filepaths Hall.
  - cbn [Artist.download_loop List.map List.concat]. by rewrite app_nil_r.
  - cbn [Artist.download_loop List.map List.concat].
    destruct (Hall track (or_introl eq_refl)) as [Hd Hf].
    rewrite Hd. cbn [obind]. rewrite Hf. cbn [obind].
    rewrite IH; [by rewrite app_assoc|].
    intros t Ht. apply Hall. by right.
Qed.

(** A run in which the tracks of [before] succeed and the next one fails. *)
Lemma artist_download_loop_fail (files : PlexObject -> list string)
    (dir : PlexObject -> pyval) (e : error)
    (savepath keep_original_name subfolders : pyval) (kwargs : list (string * pyval))
    (before after : list PlexObject) (bad : PlexObject) (filepaths : list string) :
  (forall track, In track before ->
     (if truth subfolders
      then parentTitle <~ lift (getattr track "parentTitle") ;;
           Artist.join_savepath savepath parentTitle
      else Done savepath) = Done (dir track)
     /\ Playable_download track (dir track) keep_original_name kwargs = Done (files track)) ->
  (_savepath <~ (if truth subfolders
                 then parentTitle <~ lift (getattr bad "parentTitle") ;;
                      Artist.join_savepath savepath parentTitle
                 else Done savepath) ;;
   Playable_download bad _savepath keep_original_name kwargs) = Fail e ->
  Artist.download_loop (before ++ bad :: after) filepaths
    savepath keep_original_name subfolders kwargs
  = Fail e.
Proof.
  revert filepaths. induction before as [|track before IH]; intros filepaths Hall Hbad.
  - cbn [app Artist.download_loop].
    destruct (if truth subfolders then _ else _) as [d|e']; cbn [obind] in Hbad |- *.
    + rewrite Hbad. reflexivity.
    + exact Hbad.
  - cbn [app Artist.download_loop].
    destruct (Hall track (or_introl eq_refl)) as [Hd Hf].
    rewrite Hd. cbn [obind]. rewrite Hf. cbn [obind].
    apply IH; [|exact Hbad]. intros t Ht. apply Hall. by right.
Qed.

End DownloadFacts.

Section DownloadTheorems.
Context `{Utils} `{Downloads}.

Lemma album_download_loop_ok (files : PlexObject -> list string)
    (savepath keep_original_name : pyval) (kwargs : list (string * pyval))
    (todo : list PlexObject) (filepaths : list string) :
  (forall track, In track todo ->
     Playable_download track savepath keep_original_name kwargs = Done (files track)) ->
  Album.download_loop todo filepaths savepath keep_original_name kwargs
  = Done (filepaths ++ List.concat (List.map files todo))%list.
Proof.
  revert filepaths. induction todo as [|track todo IH]; intros filepaths Hall.
  - cbn [Album.download_loop List.map List.concat]. by rewrite app_nil_r.
  - cbn [Album.download_loop List.map List.concat].
    rewrite (Hall track (or_introl eq_refl)). cbn [obind].
    rewrite IH; [by rewrite app_assoc|].
    intros t Ht. apply Hall. by right.
Qed.

(** X9: a download without sub-folders.  When the download of every track
    succeeds, [Artist.download] (over the tracks of [<key>/allLeaves]) and
    [Album.download] (over the tracks of [<key>/children]) pass the caller's
    savepath to each track unchanged and return the files of all tracks, in
    the order of the tracks; for no track they return the empty list. *)
Theorem download_collects_in_order
    (self : PlexObject) (k : string) (response : request -> list PlexObject)
    (files : PlexObject -> list string)
    (savepath keep_original_name subfolders : pyval) (kwargs : list (string * pyval)) :
  getattr self "key" = Ok (PStr k) ->
  truth subfolders = false ->
  (forall track,
     In track (response (fetchItems (k +:+ "/allLeaves") (Some TrackCls) []))
     \/ In track (response (fetchItems (k +:+ "/children") (Some TrackCls) [])) ->
     Playable_download track savepath keep_original_name kwargs = Done (files track)) ->
  Artist.download self response savepath keep_original_name subfolders kwargs
    = Done (List.concat (List.map files
              (response (fetchItems (k +:+ "/allLeaves") (Some TrackCls) []))))
  /\ Album.download self response savepath keep_original_name kwargs
    = Done (List.concat (List.map files
              (response (fetchItems (k +:+ "/children") (Some TrackCls) [])))).
Proof.
  intros Hkey Hflat Hok. split.
  - unfold Artist.download, Artist.tracks. rewrite Hkey. cbn [bind lift obind py_str].
    rewrite (artist_download_loop_ok files (fun _ => savepath)); [reflexivity|].
    intros track Hin. rewrite Hflat. split; [reflexivity|]. apply Hok. by left.
  - unfold Album.download, Album.tracks. rewrite Hkey. cbn [bind lift obind py_str].
    rewrite (album_download_loop_ok files); [reflexivity|].
    intros track Hin. apply Hok. by right.
Qed.

(** X10: a failed track stops [Artist.download], with or without
    sub-folders.  When each track before a track gets its directory
    ([track_savepath]: the savepath itself, or with sub-folders the savepath
    joined with the track's parentTitle) and is downloaded into it, and the
    download of that track, into its directory, raises, the whole call
    raises that exception: the files already written for the earlier tracks
    are not returned, and the later tracks are not reached. *)
Theorem artist_download_stops_at_failure
    (self : PlexObject) (k : string) (response : request -> list PlexObject)
    (files : PlexObject -> list string) (dir : PlexObject -> pyval) (e : error)
    (before after : list PlexObject) (bad : PlexObject)
    (savepath keep_original_name subfolders : pyval) (kwargs : list (string * pyval)) :
  getattr self "key" = Ok (PStr k) ->
  response (fetchItems (k +:+ "/allLeaves") (Some TrackCls) []) = (before ++ bad :: after)%list ->
  (forall track, In track before ->
     track_savepath savepath subfolders track = Done (dir track)
     /\ Playable_download track (dir track) keep_original_name kwargs = Done (files track)) ->
  track_savepath savepath subfolders bad = Done (dir bad) ->
  Playable_download bad (dir bad) keep_original_name kwargs = Fail e ->
  Artist.download self response savepath keep_original_name subfolders kwargs = Fail e.
Proof.
  intros Hkey Hresp Hok Hdir Hbad.
  unfold Artist.download, Artist.tracks. rewrite Hkey. cbn [bind lift obind py_str].
  rewrite Hresp.
  apply (artist_download_loop_fail files dir).
  - exact Hok.
  - fold (track_savepath savepath subfolders bad). rewrite Hdir. exact Hbad.
Qed.

(** X11: sub-folders need a savepath.  With [subfolders] set and a savepath
    that is not text (the default, None, among them), [Artist.download]
    raises a TypeError at the first track that has a parentTitle, before
    anything is downloaded; only an artist without tracks gets the empty
    list. *)
Theorem artist_download_subfolders_needs_savepath
    (self : PlexObject) (k : string) (response : request -> list PlexObject)
    (savepath keep_original_name subfolders : pyval) (kwargs : list (string * pyval)) :
  getattr self "key" = Ok (PStr k) ->
  truth subfolders = true ->
  (forall d, savepath <> PStr d) ->
  (response (fetchItems (k +:+ "/allLeaves") (Some TrackCls) []) = [] ->
   Artist.download self response savepath keep_original_name subfolders kwargs = Done [])
  /\ (forall first rest parentTitle,
       response (fetchItems (k +:+ "/allLeaves") (Some TrackCls) []) = first :: rest ->
       getattr first "parentTitle" = Ok parentTitle ->
       Artist.download self response savepath keep_original_name subfolders kwargs
       = Fail TypeError).
Proof.
  intros Hkey Hsub Hpath.
  unfold Artist.download, Artist.tracks. rewrite Hkey. cbn [bind lift obind py_str].
  split.
  - intros ->. reflexivity.
  - intros first rest parentTitle -> Htitle.
    cbn [Artist.download_loop]. rewrite Hsub, Htitle. cbn [lift obind].
    unfold Artist.join_savepath.
    destruct savepath; try reflexivity.
    exfalso. by eapply Hpath.
Qed.

End DownloadTheorems.

(** ** Sub-folders *)

Lemma startswith_append (a b : string) : PyStr.startswith a (a +:+ b) = true.
Proof.
  induction a as [|c a IH]; [reflexivity|].
  change (String c a +:+ b) with (String c (a +:+ b)).
  cbn [PyStr.startswith]. by rewrite Ascii.eqb_refl, IH.
Qed.

Lemma endswith_append (a b : string) : PyStr.endswith b (a +:+ b) = true.
Proof.
  induction a as [|c a IH].
  - change ("" +:+ b) with b. destruct b; cbn [PyStr.endswith];
      by rewrite String.eqb_refl.
  - change (String c a +:+ b) with (String c (a +:+ b)).
    cbn [PyStr.endswith]. rewrite IH. apply orb_true_r.
Qed.

(** [os.path.join(a, b)]: a relative [b] is put below [a]; an absolute [b]
    replaces [a]. *)
Lemma join_cases (a b : string) :
  (PyStr.startswith "/" b = false ->
   PyStr.startswith a (os_path.join a b) = true
   /\ PyStr.endswith b (os_path.join a b) = true)
  /\ (PyStr.startswith "/" b = true -> os_path.join a b = b).
Proof.
  unfold os_path.join. split; intros Hb; rewrite Hb; [|reflexivity].
  destruct (String.eqb a "" || PyStr.endswith "/" a).
  - split; [apply startswith_append | apply endswith_append].
  - split; [apply startswith_append|].
    rewrite <- append_assoc. apply endswith_append.
Qed.

Section SubfolderTheorems.
Context `{Utils} `{Downloads}.

(** X12: a download into sub-folders.  With [subfolders] set and a text
    savepath, each track is downloaded to [os.path.join(savepath,
    parentTitle)] and the files of all tracks are returned in order.  That
    directory lies below the savepath and ends with the album title when the
    title does not start with "/"; for a title that starts with "/" it is the
    title alone, outside the savepath. *)
Theorem artist_download_subfolders
    (self : PlexObject) (k savepath : string) (response : request -> list PlexObject)
    (parentTitle : PlexObject -> string) (files : PlexObject -> list string)
    (keep_original_name subfolders : pyval) (kwargs : list (string * pyval)) :
  getattr self "key" = Ok (PStr k) ->
  truth subfolders = true ->
  (forall track,
     In track (response (fetchItems (k +:+ "/allLeaves") (Some TrackCls) [])) ->
     getattr track "parentTitle" = Ok (PStr (parentTitle track))
     /\ Playable_download track (PStr (os_path.join savepath (parentTitle track)))
          keep_original_name kwargs = Done (files track)) ->
  Artist.download self response (PStr savepath) keep_original_name subfolders kwargs
    = Done (List.concat (List.map files
              (response (fetchItems (k +:+ "/allLeaves") (Some TrackCls) []))))
  /\ (forall track,
       PyStr.startswith "/" (parentTitle track) = false ->
       PyStr.startswith savepath (os_path.join savepath (parentTitle track)) = true
       /\ PyStr.endswith (parentTitle track)
            (os_path.join savepath (parentTitle track)) = true)
  /\ (forall track,
       PyStr.startswith "/" (parentTitle track) = true ->
       os_path.join savepath (parentTitle track) = parentTitle track).
Proof.
  intros Hkey Hsub Hok. split; [|split].
  - unfold Artist.download, Artist.tracks. rewrite Hkey. cbn [bind lift obind py_str].
    rewrite (artist_download_loop_ok files
               (fun track => PStr (os_path.join savepath (parentTitle track))));
      [reflexivity|].
    intros track Hin. destruct (Hok track Hin) as [Ht Hd].
    rewrite Hsub, Ht. cbn [lift obind Artist.join_savepath]. by split.
  - intros track. apply join_cases.
  - intros track. apply join_cases.
Qed.

End SubfolderTheorems.

(** ** The sync item *)

Lemma hexchar_upper_unsafe (n : N) :
  (n < 16)%N ->
  PyStr.mem (urllib.hexchar_upper n) "0123456789ABCDEF" = true.
Proof.
  intros Hn. unfold urllib.hexchar_upper.
  assert (N.to_nat n < 16) as Hlt by lia.
  destruct (N.to_nat n) as [|m]; [reflexivity|].
  do 15 (destruct m as [|m]; [reflexivity|]). lia.
Qed.

Lemma quote_plus_chars (s : string) :
  all_chars urllib.quoted_char (urllib.quote_plus s) = true.
Proof.
  induction s as [|c s IH]; [reflexivity|].
  cbn [urllib.quote_plus].
  destruct (urllib.always_safe c) eqn:Hsafe.
  - cbn [all_chars]. unfold urllib.quoted_char at 1. by rewrite Hsafe, IH.
  - destruct (Ascii.eqb c " ").
    + cbn [all_chars]. by rewrite IH.
    + unfold urllib.percent.
      change (String "%" (String ?a (String ?b "")) +:+ ?r)
        with (String "%" (String a (String b r))).
      cbn [all_chars]. rewrite IH.
      assert (forall n, (n < 16)%N -> urllib.quoted_char (urllib.hexchar_upper n) = true) as Hhex.
      { intros n Hn. pose proof (hexchar_upper_unsafe n Hn) as Hm.
        unfold urllib.quoted_char. apply orb_true_iff. left. apply orb_true_iff. left.
        unfold urllib.always_safe.
        revert Hm. generalize (urllib.hexchar_upper n). intros a Ha.
        cbn [PyStr.mem] in Ha |- *.
        repeat (apply orb_true_iff in Ha as [Ha|Ha];
                [rewrite Ha; rewrite ?orb_true_r; reflexivity|]).
        discriminate Ha. }
      rewrite (Hhex (N_of_ascii c / 16)%N), (Hhex (N_of_ascii c mod 16)%N).
      * reflexivity.
      * apply N.mod_lt. discriminate.
      * pose proof (N_ascii_bounded c). apply N.Div0.div_lt_upper_bound. lia.
Qed.

Lemma hexval_hexchar_upper (n : N) :
  (n < 16)%N -> urllib.hexval (urllib.hexchar_upper n) = n.
Proof.
  intros Hn. rewrite <- (N2Nat.id n) at 2. unfold urllib.hexchar_upper.
  assert (N.to_nat n < 16) as Hlt by lia.
  destruct (N.to_nat n) as [|m]; [vm_compute; reflexivity|].
  do 15 (destruct m as [|m]; [vm_compute; reflexivity|]). lia.
Qed.

Lemma always_safe_plain (c : ascii) :
  urllib.always_safe c = true -> Ascii.eqb c "+" = false /\ Ascii.eqb c "%" = false.
Proof.
  intros Hc. split.
  - destruct (Ascii.eqb_spec c "+") as [->|]; [discriminate Hc | reflexivity].
  - destruct (Ascii.eqb_spec c "%") as [->|]; [discriminate Hc | reflexivity].
Qed.

(** What [quote_plus] writes reads back as the text it was given. *)
Lemma unquote_quote_plus (s : string) :
  urllib.unquote_plus (urllib.quote_plus s) = s.
Proof.
  induction s as [|c s IH]; [reflexivity|].
  cbn [urllib.quote_plus].
  destruct (urllib.always_safe c) eqn:Hsafe.
  - cbn [urllib.unquote_plus].
    destruct (always_safe_plain c Hsafe) as [-> ->]. by rewrite IH.
  - destruct (Ascii.eqb_spec c " ") as [->|Hsp].
    + cbn [urllib.unquote_plus]. change (Ascii.eqb "+" "+") with true.
      cbv iota. by rewrite IH.
    + unfold urllib.percent.
      change (String "%" (String ?a (String ?b "")) +:+ ?r)
        with (String "%" (String a (String b r))).
      cbn [urllib.unquote_plus].
      change (Ascii.eqb "%" "+") with false. change (Ascii.eqb "%" "%") with true.
      cbv iota. rewrite IH.
      pose proof (N_ascii_bounded c) as Hb.
      rewrite !hexval_hexchar_upper.
      * rewrite <- N.div_mod by discriminate. by rewrite ascii_N_embedding.
      * apply N.mod_lt. discriminate.
      * apply N.Div0.div_lt_upper_bound. lia.
Qed.

Lemma quote_plus_injective (a b : string) :
  urllib.quote_plus a = urllib.quote_plus b -> a = b.
Proof.
  intros Heq. rewrite <- (unquote_quote_plus a), <- (unquote_quote_plus b).
  by rewrite Heq.
Qed.

Lemma quote_plus_reserved (c : ascii) (s : string) :
  urllib.quoted_char c = false -> PyStr.mem c (urllib.quote_plus s) = false.
Proof.
  intros Hc. apply (all_chars_not_mem urllib.quoted_char); [exact Hc|].
  apply quote_plus_chars.
Qed.

Section SyncTheorems.
Context `{Utils}.

(** X13: the location of a sync item, for a call with a title of the
    caller's and for a call without one ([sync(bitrate)]: the title is None,
    and the default title is taken).  For an object whose key is text the
    location is "library://<uuid>/item/<quoted key>", where the quoted key is
    the key with every character other than letters, digits and [_.-~]
    escaped: it holds no "/", "?", "#", "&" or space, so it is one path
    segment, and it reads back as the key ([unquote_plus]), so objects with
    different keys get different locations. *)
Theorem sync_location (server : PlexServer) (self : PlexObject)
    (own_title listType sectionID uuid chosen : pyval) (k : string)
    (bitrate client clientId limit title : pyval) :
  (truth title = true /\ chosen = title)
    \/ (truth title = false /\ AudioSync._defaultSyncTitle self = Ok chosen) ->
  getattr self "title" = Ok own_title ->
  getattr self "listType" = Ok listType ->
  getattr self "librarySectionID" = Ok sectionID ->
  sectionByID_uuid server sectionID = Ok uuid ->
  getattr self "key" = Ok (PStr k) ->
  exists item,
    AudioSync.sync server self bitrate client clientId limit title
      = Done (myplex_sync item client clientId)
    /\ sync_title item = chosen
    /\ location item = "library://" +:+ py_str uuid +:+ "/item/" +:+ urllib.quote_plus k
    /\ all_chars urllib.quoted_char (urllib.quote_plus k) = true
    /\ PyStr.mem "/" (urllib.quote_plus k) = false
    /\ PyStr.mem "?" (urllib.quote_plus k) = false
    /\ PyStr.mem "#" (urllib.quote_plus k) = false
    /\ PyStr.mem "&" (urllib.quote_plus k) = false
    /\ PyStr.mem " " (urllib.quote_plus k) = false
    /\ urllib.unquote_plus (urllib.quote_plus k) = k
    /\ (forall k', urllib.quote_plus k' = urllib.quote_plus k -> k' = k).
Proof.
  intros Hchosen Ht Hl Hs Hu Hk.
  assert ((if truth title then Ok title else AudioSync._defaultSyncTitle self)
          = Ok chosen) as Htitle.
  { destruct Hchosen as [[-> ->] | [-> Hdefault]]; [reflexivity | exact Hdefault]. }
  unfold AudioSync.sync. rewrite Htitle. cbn [lift obind].
  rewrite Ht. cbn [lift obind]. rewrite Hl. cbn [lift obind].
  rewrite Hs. cbn [lift obind]. rewrite Hu. cbn [lift obind].
  rewrite Hk. cbn [lift obind AudioSync.quote_plus].
  eexists. split; [reflexivity|]. split; [reflexivity|]. split; [reflexivity|].
  split; [apply quote_plus_chars|].
  repeat (split; [by apply quote_plus_reserved|]).
  split; [apply unquote_quote_plus|].
  intros k'. apply quote_plus_injective.
Qed.


End SyncTheorems.

(** ** Metadata directories of an album and its tracks *)

(** X15: a track is kept in the metadata directory of its album.  For an
    album and a track whose parentGuid is the album's guid, both
    [metadataDirectory] properties return the same path under
    "Metadata/Albums/"; the directory of an artist is under
    "Metadata/Artists/" and so is never the directory of an album or a
    track. *)
Theorem track_shares_album_directory (album track artist : PlexObject)
    (album_guid artist_guid : string) :
  getattr album "guid" = Ok (PStr album_guid) ->
  getattr track "parentGuid" = Ok (PStr album_guid) ->
  getattr artist "guid" = Ok (PStr artist_guid) ->
  exists album_path artist_path,
    Album.metadataDirectory album = Ok album_path
    /\ Track.metadataDirectory track = Ok album_path
    /\ Artist.metadataDirectory artist = Ok artist_path
    /\ PyStr.startswith "Metadata/Albums/" album_path = true
    /\ PyStr.startswith "Metadata/Artists/" artist_path = true
    /\ artist_path <> album_path.
Proof.
  intros Ha Ht Hr.
  unfold Album.metadataDirectory, Track.metadataDirectory, Artist.metadataDirectory.
  rewrite Ha, Ht, Hr. cbn [bind utils.sha1hash].
  rewrite !bundle_of_digest by reflexivity.
  eexists _, _. split; [reflexivity|]. split; [reflexivity|]. split; [reflexivity|].
  split; [reflexivity|]. split; [reflexivity|].
  intros Heq.
  assert (PyStr.startswith "Metadata/Al"
            (spec_bundle_path "Artists"
               (Hashlib.hexdigest (Hashlib.sha1 (Hashlib.bytes_of_string artist_guid))))
          = false) as Hart by reflexivity.
  rewrite Heq in Hart. discriminate Hart.
Qed.

(** ** The properties above on the fixtures *)

Section Witnesses.
Local Existing Instance Fixture.utils.
Local Existing Instance Fixture.downloads.

Lemma loader_footprint_witness :
  last_assigned "title" (Audio_fields Fixture.jason_mraz) = Some (PStr "Jason Mraz")
  /\ getattr Fixture.we_sing "title" = Ok (PStr "We Sing")
  /\ ~ In "studio" (assigned_names (Audio_fields Fixture.jason_mraz))
  /\ loaded_attr (Audio._loadData Fixture.we_sing Fixture.jason_mraz) "title"
     = Ok (PStr "Jason Mraz")
  /\ loaded_attr (Audio._loadData Fixture.we_sing Fixture.jason_mraz) "studio"
     = getattr Fixture.we_sing "studio".
Proof.
  assert (last_assigned "title" (Audio_fields Fixture.jason_mraz) = Some (PStr "Jason Mraz"))
    as Hlast by (vm_compute; reflexivity).
  assert (~ In "studio" (assigned_names (Audio_fields Fixture.jason_mraz))) as Hout
    by (cbn; intros Hx; repeat (destruct Hx as [Hx|Hx]; [discriminate Hx|]); exact Hx).
  split; [exact Hlast|]. split; [vm_compute; reflexivity|]. split; [exact Hout|].
  assert (attrib Fixture.jason_mraz !! "title" = Some "Jason Mraz") as Hhas
    by (vm_compute; reflexivity).
  pose proof (loader_footprint Fixture.we_sing Fixture.jason_mraz "Jason Mraz" "title" Hhas)
    as Htitle.
  pose proof (loader_footprint Fixture.we_sing Fixture.jason_mraz "Jason Mraz" "studio" Hhas)
    as Hstudio.
  apply List.Forall_inv in Htitle. apply List.Forall_inv in Hstudio.
  cbn [fst snd] in Htitle, Hstudio.
  split.
  - apply (proj1 Htitle _ Hlast). discriminate.
  - exact (proj2 Hstudio Hout).
Defined.

Lemma container_key_unchanged_iff_witness :
  attrib Fixture.jason_mraz !! "key" = Some "/library/metadata/1/children"
  /\ (loaded_attr (Artist._loadData (Fixture.blank ArtistCls) Fixture.jason_mraz) "key"
        = Ok (PStr "/library/metadata/1/children")
      <-> PyStr.contains "/children" "/library/metadata/1/children" = false)
  /\ PyStr.contains "/children" "/library/metadata/1/children" = true.
Proof.
  assert (attrib Fixture.jason_mraz !! "key" = Some "/library/metadata/1/children") as Hk
    by (vm_compute; reflexivity).
  split; [exact Hk|].
  split; [|reflexivity].
  exact (proj1 (container_key_unchanged_iff (Fixture.blank ArtistCls)
                  Fixture.jason_mraz _ Hk)).
Defined.



Lemma artist_albums_filters_witness :
  getattr Fixture.artist_one "ratingKey" = Ok (PInt 1)
  /\ Artist.albums Fixture.artist_one [("filters", KVal PNone)] = Fail TypeError
  /\ Artist.albums Fixture.artist_one [("libtype", KVal (PStr "track"))] = Fail TypeError
  /\ Artist.albums Fixture.artist_one
       [("filters", KDict [("artist.id", PInt 9); ("year", PInt 2008)]);
        ("sort", KVal (PStr "year"))]
     = Done (section_search_kw "album" [("artist.id", PInt 1); ("year", PInt 2008)]
               [("sort", KVal (PStr "year"))]).
Proof.
  assert (getattr Fixture.artist_one "ratingKey" = Ok (PInt 1)) as Hrk by (vm_compute; reflexivity).
  split; [exact Hrk|].
  split; [|split].
  - exact (proj1 (artist_albums_filters Fixture.artist_one (PInt 1)
                    [("filters", KVal PNone)] Hrk) PNone eq_refl).
  - destruct (proj2 (artist_albums_filters Fixture.artist_one (PInt 1)
                       [("libtype", KVal (PStr "track"))] Hrk) []
                (or_intror (conj eq_refl eq_refl))) as [Hdup _].
    exact (Hdup eq_refl).
  - destruct (proj2 (artist_albums_filters Fixture.artist_one (PInt 1)
                       [("filters", KDict [("artist.id", PInt 9); ("year", PInt 2008)]);
                        ("sort", KVal (PStr "year"))] Hrk)
                [("artist.id", PInt 9); ("year", PInt 2008)]
                (or_introl eq_refl)) as [_ Hok].
    destruct (Hok eq_refl) as (filters & rest & Hcall & _).
    rewrite Hcall. vm_compute in Hcall. injection Hcall as <- <-. reflexivity.
Defined.

Lemma hasSonicAnalysis_of_loaded_witness :
  attrib Fixture.artist_fragment !! "title" = Some "Jason Mraz"
  /\ attrib Fixture.artist_fragment !! "musicAnalysisVersion" = Some "1"
  /\ coerce int (PStr "1") = PInt 1
  /\ (o <- Artist._loadData (Fixture.blank ArtistCls) Fixture.artist_fragment ;;
      Audio.hasSonicAnalysis o) = Ok true.
Proof.
  assert (attrib Fixture.artist_fragment !! "title" = Some "Jason Mraz") as Ht
    by (vm_compute; reflexivity).
  assert (attrib Fixture.artist_fragment !! "musicAnalysisVersion" = Some "1") as Hm
    by (vm_compute; reflexivity).
  split; [exact Ht|]. split; [exact Hm|]. split; [reflexivity|].
  exact (proj1 (proj2 (hasSonicAnalysis_of_loaded (Fixture.blank ArtistCls)
                         Fixture.artist_fragment "Jason Mraz" "1" 1 Ht Hm eq_refl))).
Defined.

Lemma defaultSyncTitle_of_loaded_witness :
  attrib Fixture.we_sing_fragment !! "title" = Some "We Sing"
  /\ attrib Fixture.we_sing_fragment !! "parentTitle" = Some "Jason Mraz"
  /\ attrib Fixture.artist_fragment !! "title" = Some "Jason Mraz"
  /\ (o <- Album._loadData (Fixture.blank AlbumCls) Fixture.we_sing_fragment ;;
      AudioSync._defaultSyncTitle o) = Ok (PStr "Jason Mraz - We Sing")
  /\ (o <- Artist._loadData (Fixture.blank ArtistCls) Fixture.artist_fragment ;;
      AudioSync._defaultSyncTitle o) = Ok (PStr "Jason Mraz").
Proof.
  assert (attrib Fixture.we_sing_fragment !! "title" = Some "We Sing") as Ht
    by (vm_compute; reflexivity).
  assert (attrib Fixture.we_sing_fragment !! "parentTitle" = Some "Jason Mraz") as Hp
    by (vm_compute; reflexivity).
  assert (attrib Fixture.artist_fragment !! "title" = Some "Jason Mraz") as Ha
    by (vm_compute; reflexivity).
  split; [exact Ht|]. split; [exact Hp|]. split; [exact Ha|]. split.
  - exact (proj1 (defaultSyncTitle_of_loaded (Fixture.blank AlbumCls)
                    Fixture.we_sing_fragment "We Sing" Ht) eq_refl "Jason Mraz" Hp).
  - exact (proj2 (defaultSyncTitle_of_loaded (Fixture.blank ArtistCls)
                    Fixture.artist_fragment "Jason Mraz" Ha) eq_refl).
Defined.

Lemma prettyfilename_number_witness :
  getattr (Fixture.track_of "Lucky" "We Sing" 3) "index" = Ok (PInt 3)
  /\ Track._prettyfilename (Fixture.track_of "Lucky" "We Sing" 3)
     = Ok "Jason Mraz - We Sing - 03 - Lucky".
Proof.
  pose (t := Fixture.track_of "Lucky" "We Sing" 3).
  assert (getattr t "grandparentTitle" = Ok (PStr "Jason Mraz")) as Hg by (vm_compute; reflexivity).
  assert (getattr t "parentTitle" = Ok (PStr "We Sing")) as Hp by (vm_compute; reflexivity).
  assert (getattr t "title" = Ok (PStr "Lucky")) as Ht by (vm_compute; reflexivity).
  assert (getattr t "index" = Ok (PInt 3)) as Hi by (vm_compute; reflexivity).
  split; [exact Hi|].
  destruct (prettyfilename_number t _ _ _ _ Hg Hp Ht Hi) as (number & Hname & _ & Hdigit & _).
  assert (number = String "0" (PyStr.of_int 3)) as Hn by (apply Hdigit; [reflexivity | lia]).
  subst number. exact Hname.
Defined.

Lemma download_collects_in_order_witness :
  getattr Fixture.artist_one "key" = Ok (PStr "/library/metadata/1")
  /\ Artist.download Fixture.artist_one Fixture.two_tracks (PStr "/music") (PBool false) (PBool false) []
     = Done ["/music/Lucky.mp3"; "/music/Butterfly.mp3"]
  /\ Album.download Fixture.artist_one Fixture.two_tracks (PStr "/music") (PBool false) []
     = Done ["/music/Lucky.mp3"; "/music/Butterfly.mp3"].
Proof.
  assert (getattr Fixture.artist_one "key" = Ok (PStr "/library/metadata/1")) as Hkey
    by (vm_compute; reflexivity).
  split; [exact Hkey|].
  refine (download_collects_in_order Fixture.artist_one "/library/metadata/1" Fixture.two_tracks
            (Fixture.mp3_of "/music") (PStr "/music") (PBool false) (PBool false) []
            Hkey eq_refl _).
  intros track [Hin|Hin];
    (destruct Hin as [<-|[<-|[]]]; vm_compute; reflexivity).
Defined.

Lemma artist_download_stops_at_failure_witness :
  (* without sub-folders *)
  Artist.download Fixture.artist_one Fixture.tracks_with_broken (PStr "/music")
    (PBool false) (PBool false) []
  = Fail TypeError
  (* with sub-folders *)
  /\ track_savepath (PStr "/music") (PBool true) Fixture.lucky_track
     = Done (PStr "/music/We Sing")
  /\ Playable_download Fixture.broken_track (PStr "/music/We Sing") (PBool false) []
     = Fail TypeError
  /\ Artist.download Fixture.artist_one Fixture.tracks_with_broken (PStr "/music")
       (PBool false) (PBool true) []
     = Fail TypeError.
Proof.
  assert (getattr Fixture.artist_one "key" = Ok (PStr "/library/metadata/1")) as Hkey
    by (vm_compute; reflexivity).
  split; [|split; [|split]].
  - refine (artist_download_stops_at_failure Fixture.artist_one "/library/metadata/1"
              Fixture.tracks_with_broken (Fixture.mp3_of "/music") (fun _ => PStr "/music")
              TypeError [Fixture.lucky_track] [Fixture.butterfly_track] Fixture.broken_track
              (PStr "/music") (PBool false) (PBool false) [] Hkey eq_refl _ eq_refl eq_refl).
    intros track [<-|[]]. split; vm_compute; reflexivity.
  - vm_compute. reflexivity.
  - vm_compute. reflexivity.
  - refine (artist_download_stops_at_failure Fixture.artist_one "/library/metadata/1"
              Fixture.tracks_with_broken (Fixture.in_subfolder "/music")
              (fun track => PStr (os_path.join "/music" (Fixture.album_title track)))
              TypeError [Fixture.lucky_track] [Fixture.butterfly_track] Fixture.broken_track
              (PStr "/music") (PBool false) (PBool true) [] Hkey eq_refl _ _ _).
    + intros track [<-|[]]. split; vm_compute; reflexivity.
    + vm_compute. reflexivity.
    + vm_compute. reflexivity.
Defined.

Lemma artist_download_subfolders_needs_savepath_witness :
  Artist.download Fixture.artist_one Fixture.two_tracks PNone (PBool false) (PBool true) []
    = Fail TypeError
  /\ Artist.download Fixture.artist_one (fun _ => []) PNone (PBool false) (PBool true) []
    = Done [].
Proof.
  assert (getattr Fixture.artist_one "key" = Ok (PStr "/library/metadata/1")) as Hkey
    by (vm_compute; reflexivity).
  assert (forall d, PNone <> PStr d) as Hnone by (intros d; discriminate).
  split.
  - refine (proj2 (artist_download_subfolders_needs_savepath Fixture.artist_one
                     "/library/metadata/1" Fixture.two_tracks PNone (PBool false) (PBool true) []
                     Hkey eq_refl Hnone)
              Fixture.lucky_track [Fixture.butterfly_track] (PStr "We Sing") eq_refl _).
    vm_compute. reflexivity.
  - exact (proj1 (artist_download_subfolders_needs_savepath Fixture.artist_one
                    "/library/metadata/1" (fun _ => []) PNone (PBool false) (PBool true) []
                    Hkey eq_refl Hnone) eq_refl).
Defined.

Lemma artist_download_subfolders_witness :
  Artist.download Fixture.artist_one Fixture.two_tracks (PStr "/music") (PBool false) (PBool true) []
    = Done ["/music/We Sing/Lucky.mp3"; "/music/We Dance/Butterfly.mp3"]
  /\ os_path.join "/music" "/etc" = "/etc".
Proof.
  assert (getattr Fixture.artist_one "key" = Ok (PStr "/library/metadata/1")) as Hkey
    by (vm_compute; reflexivity).
  split; [|reflexivity].
  refine (proj1 (artist_download_subfolders Fixture.artist_one "/library/metadata/1"
                   "/music" Fixture.two_tracks Fixture.album_title (Fixture.in_subfolder "/music")
                   (PBool false) (PBool true) [] Hkey eq_refl _)).
  intros track Hin.
  destruct Hin as [<-|[<-|[]]]; split; vm_compute; reflexivity.
Defined.

Lemma sync_location_witness :
  (* the default call [sync(bitrate)] on a loaded album *)
  (exists item,
    AudioSync.sync Fixture.server Fixture.loaded_album (PInt 192) PNone PNone PNone PNone
    = Done (myplex_sync item PNone PNone)
    /\ sync_title item = PStr "Jason Mraz - We Sing"
    /\ location item = "library://e9c7b0a1/item/%2Flibrary%2Fmetadata%2F2")
  (* a call with a title *)
  /\ (exists item,
    AudioSync.sync Fixture.server Fixture.synced_album (PInt 192) PNone (PStr "phone") PNone
      (PStr "For the road")
    = Done (myplex_sync item PNone (PStr "phone"))
    /\ sync_title item = PStr "For the road"
    /\ location item = "library://e9c7b0a1/item/%2Flibrary%2Fmetadata%2F2").
Proof.
  split.
  - assert (AudioSync._defaultSyncTitle Fixture.loaded_album
            = Ok (PStr "Jason Mraz - We Sing")) as Hd by (vm_compute; reflexivity).
    assert (getattr Fixture.loaded_album "title" = Ok (PStr "We Sing")) as Ht
      by (vm_compute; reflexivity).
    assert (getattr Fixture.loaded_album "listType" = Ok (PStr "audio")) as Hl
      by (vm_compute; reflexivity).
    assert (getattr Fixture.loaded_album "librarySectionID" = Ok (PInt 3)) as Hs
      by (vm_compute; reflexivity).
    assert (getattr Fixture.loaded_album "key" = Ok (PStr "/library/metadata/2")) as Hk
      by (vm_compute; reflexivity).
    destruct (sync_location Fixture.server Fixture.loaded_album _ _ _ (PStr "e9c7b0a1")
                (PStr "Jason Mraz - We Sing") "/library/metadata/2"
                (PInt 192) PNone PNone PNone PNone
                (or_intror (conj eq_refl Hd)) Ht Hl Hs eq_refl Hk)
      as (item & Hcall & Htitle & Hloc & _).
    exists item. split; [exact Hcall|]. split; [exact Htitle|].
    rewrite Hloc. vm_compute. reflexivity.
  - assert (getattr Fixture.synced_album "title" = Ok (PStr "We Sing")) as Ht
      by (vm_compute; reflexivity).
    assert (getattr Fixture.synced_album "listType" = Ok (PStr "audio")) as Hl
      by (vm_compute; reflexivity).
    assert (getattr Fixture.synced_album "librarySectionID" = Ok (PInt 3)) as Hs
      by (vm_compute; reflexivity).
    assert (getattr Fixture.synced_album "key" = Ok (PStr "/library/metadata/2")) as Hk
      by (vm_compute; reflexivity).
    destruct (sync_location Fixture.server Fixture.synced_album _ _ _ (PStr "e9c7b0a1")
                (PStr "For the road") "/library/metadata/2"
                (PInt 192) PNone (PStr "phone") PNone (PStr "For the road")
                (or_introl (conj eq_refl eq_refl)) Ht Hl Hs eq_refl Hk)
      as (item & Hcall & Htitle & Hloc & _).
    exists item. split; [exact Hcall|]. split; [exact Htitle|].
    rewrite Hloc. vm_compute. reflexivity.
Defined.


Lemma track_shares_album_directory_witness :
  exists album_path artist_path,
    Album.metadataDirectory
      (Fixture.object AlbumCls [("guid", PStr "plex://album/5d07cd8e403c640290f180f9")])
    = Ok album_path
    /\ Track.metadataDirectory Fixture.lucky = Ok album_path
    /\ Artist.metadataDirectory
         (Fixture.object ArtistCls [("guid", PStr "plex://artist/5d07bcb0403c64029053ac4c")])
       = Ok artist_path
    /\ PyStr.startswith "Metadata/Albums/" album_path = true
    /\ PyStr.startswith "Metadata/Artists/" artist_path = true
    /\ artist_path <> album_path.
Proof.
  refine (track_shares_album_directory
            (Fixture.object AlbumCls [("guid", PStr "plex://album/5d07cd8e403c640290f180f9")])
            Fixture.lucky
            (Fixture.object ArtistCls [("guid", PStr "plex://artist/5d07bcb0403c64029053ac4c")])
            "plex://album/5d07cd8e403c640290f180f9" "plex://artist/5d07bcb0403c64029053ac4c"
            _ _ _); vm_compute; reflexivity.
Defined.

End Witnesses.
